(** * rotki dashboard: the net-worth panel and the statistics client

    A shallow embedding of
    - [frontend/app/src/components/dashboard/OverallBalances.vue]
      (the script block of the panel), and
    - [frontend/app/src/services/statistics/statistics-api.ts]
      (the statistics client),
    followed by the properties that the specification states about them.

    The panel computes with JavaScript numbers (the entries of a net-value
    series) and with [BigNumber]s of bignumber.js (totals, deltas and
    percentages).  Both are libraries outside the repository; they are
    modelled below by their value semantics, signed zeros and the
    non-finite values included. *)

From Stdlib Require Import ZArith NArith QArith Qminmax Qabs Qpower Qfield.
From Stdlib Require Import Lqa Bool List Lia.
From Stdlib Require Import Strings.String Strings.Ascii Numbers.DecimalString.
From Stdlib Require Import Numbers.DecimalPos.
Import ListNotations.

Local Open Scope bool_scope.

(** ** Decimal helpers *)

(** [pow10 k] is [10^k] for [0 <= k] and [1] otherwise, so that a shift by
    [k] decimal places multiplies one side by [pow10 k] and the other by
    [pow10 (- k)]. *)
Definition pow10 (k : Z) : N := (10 ^ Z.to_N k)%N.

(** Division of naturals rounded to the nearest, ties upwards
    (ROUND_HALF_UP on a magnitude). *)
Definition round_half_up (n d : N) : N := ((2 * n + d) / (2 * d))%N.

Definition signed (neg : bool) (c : N) : Z :=
  if neg then (- Z.of_N c)%Z else Z.of_N c.

(** ** JavaScript numbers *)

Module Js.

(** A number of the series.  A finite number is read through its decimal
    rendering [String(v)], which is what [new BigNumber(v)] parses:
    [Finite neg c e] is [(-1)^neg * c * 10^e], and [Finite true 0 _] is
    the negative zero. *)
Inductive number : Type :=
| NaN
| Infinity (neg : bool)
| Finite (neg : bool) (c : N) (e : Z).

(** The result of reading [data[i]]: [None] is [undefined]. *)
Definition value : Type := option number.

Definition of_Z (z : Z) : number := Finite (z <? 0)%Z (Z.abs_N z) 0.

(** [v === 0] *)
Definition strict_eq_zero (v : value) : bool :=
  match v with
  | Some (Finite _ c _) => (c =? 0)%N
  | _ => false
  end.

(** [v > 0]; [undefined > 0] and [NaN > 0] are false. *)
Definition gt_zero (v : value) : bool :=
  match v with
  | Some (Finite neg c _) => negb neg && negb (c =? 0)%N
  | Some (Infinity neg) => negb neg
  | _ => false
  end.

(** [data[i]] *)
Definition get (data : list number) (i : nat) : value := nth_error data i.

End Js.

(** ** bignumber.js *)

Module BigNumber.

(** A BigNumber is NaN, an infinity, or a signed decimal
    [(-1)^neg * c * 10^e].  The coefficient is not kept normalised: the
    operations the panel observes ([isFinite], [isNegative], [toFormat])
    depend on the sign and the value only. *)
Inductive t : Type :=
| NaN
| Infinity (neg : bool)
| Finite (neg : bool) (c : N) (e : Z).

(** Library configuration (the defaults): quotients are rounded to
    [DECIMAL_PLACES] places with ROUND_HALF_UP, and [toFormat] groups the
    integer part by three with [","] and separates decimals with ["."]. *)
Definition DECIMAL_PLACES : Z := 20.

(** [new BigNumber(v)] for a number or [undefined]. *)
Definition make (v : Js.value) : t :=
  match v with
  | None => NaN
  | Some Js.NaN => NaN
  | Some (Js.Infinity neg) => Infinity neg
  | Some (Js.Finite neg c e) => Finite neg c e
  end.

Definition of_Z (z : Z) : t := make (Some (Js.of_Z z)).

Definition isFinite (x : t) : bool :=
  match x with Finite _ _ _ => true | _ => false end.

(** [isNegative]: the sign bit, so the negative zero is negative and NaN
    is not. *)
Definition isNegative (x : t) : bool :=
  match x with
  | NaN => false
  | Infinity neg => neg
  | Finite neg _ _ => neg
  end.

Definition isZero (x : t) : bool :=
  match x with Finite _ c _ => (c =? 0)%N | _ => false end.

Definition isNaN (x : t) : bool :=
  match x with NaN => true | _ => false end.

(** The rational that a finite BigNumber denotes (and [0] for the others,
    where it is not used). *)
Definition to_Q (x : t) : Q :=
  match x with
  | Finite neg c e => inject_Z (signed neg c) * 10 ^ e
  | _ => 0
  end.

(** [x.minus(y)].  A zero result is positive, except for [-0 - (+0)]. *)
Definition minus (x y : t) : t :=
  match x, y with
  | NaN, _ | _, NaN => NaN
  | Infinity a, Infinity b => if Bool.eqb a b then NaN else Infinity a
  | Infinity a, Finite _ _ _ => Infinity a
  | Finite _ _ _, Infinity b => Infinity (negb b)
  | Finite a c1 e1, Finite b c2 e2 =>
      let e := Z.min e1 e2 in
      let r := (signed a (c1 * pow10 (e1 - e))
                - signed b (c2 * pow10 (e2 - e)))%Z in
      if (r =? 0)%Z then Finite ((c1 =? 0)%N && a && negb b) 0 0
      else Finite (r <? 0)%Z (Z.abs_N r) e
  end.

(** [x.div(y)]: NaN for [0/0] and [Infinity/Infinity], an infinity for a
    non-zero value over zero, otherwise the quotient rounded to
    [DECIMAL_PLACES] decimal places. *)
Definition div (x y : t) : t :=
  match x, y with
  | NaN, _ | _, NaN => NaN
  | Infinity _, Infinity _ => NaN
  | Infinity a, Finite b _ _ => Infinity (xorb a b)
  | Finite a _ _, Infinity b => Finite (xorb a b) 0 0
  | Finite a c1 e1, Finite b c2 e2 =>
      if (c2 =? 0)%N then
        if (c1 =? 0)%N then NaN else Infinity (xorb a b)
      else if (c1 =? 0)%N then Finite (xorb a b) 0 0
      else
        let k := (e1 - e2 + DECIMAL_PLACES)%Z in
        Finite (xorb a b)
               (round_half_up (c1 * pow10 k) (c2 * pow10 (- k)))
               (- DECIMAL_PLACES)
  end.

(** [x.multipliedBy(y)]: exact; NaN for zero times an infinity. *)
Definition multipliedBy (x y : t) : t :=
  match x, y with
  | NaN, _ | _, NaN => NaN
  | Infinity a, Infinity b => Infinity (xorb a b)
  | Infinity a, Finite b c _ =>
      if (c =? 0)%N then NaN else Infinity (xorb a b)
  | Finite a c _, Infinity b =>
      if (c =? 0)%N then NaN else Infinity (xorb a b)
  | Finite a c1 e1, Finite b c2 e2 =>
      if (c1 =? 0)%N || (c2 =? 0)%N then Finite (xorb a b) 0 0
      else Finite (xorb a b) (c1 * c2) (e1 + e2)
  end.

(** *** Formatting *)

Definition string_of_N (n : N) : string :=
  NilEmpty.string_of_uint (N.to_uint n).

Fixpoint zeros (n : nat) : string :=
  match n with
  | O => EmptyString
  | S n' => String "0" (zeros n')
  end.

Definition pad_left (width : nat) (s : string) : string :=
  (zeros (width - String.length s) ++ s)%string.

(** Grouping of the integer digits by three, counted from the right. *)
Fixpoint group (s : string) : string :=
  match s with
  | EmptyString => EmptyString
  | String ch rest =>
      String ch
        (if negb (String.length rest =? 0)%nat
            && (String.length rest mod 3 =? 0)%nat
         then String "," (group rest) else group rest)
  end.

(** The magnitude [c * 10^e] scaled by [10^dp] and rounded half up. *)
Definition scaled (c : N) (e : Z) (dp : nat) : N :=
  let k := (e + Z.of_nat dp)%Z in
  round_half_up (c * pow10 k) (pow10 (- k)).

(** [x.toFormat(dp)].  The sign of a finite value is printed when the
    unrounded value is not zero, so [-0.001] prints as ["-0.00"]. *)
Definition toFormat (dp : nat) (x : t) : string :=
  match x with
  | NaN => "NaN"
  | Infinity neg => if neg then "-Infinity" else "Infinity"
  | Finite neg c e =>
      let n := scaled c e dp in
      let unit := pow10 (Z.of_nat dp) in
      let int_part := group (string_of_N (n / unit)) in
      let fraction := pad_left dp (string_of_N (n mod unit)) in
      ((if neg && negb (c =? 0)%N then "-" else "")
         ++ int_part
         ++ (match dp with O => "" | S _ => "." ++ fraction end))%string
  end.

End BigNumber.

(** [bigNumberify(value)] of the front end is [new BigNumber(value)]. *)
Definition bigNumberify (v : Js.value) : BigNumber.t := BigNumber.make v.

(** ** Errors and results *)

(** The error taxonomy: a rejected HTTP status, an envelope without a
    result, a response that does not match its schema, and a failed
    [assert]. *)
Inductive Error : Type :=
| TransportError (status : nat)
| EnvelopeError (message : string)
| SchemaValidationError
| PreconditionViolation.

(** The outcome of a call that may throw (or of a promise that may
    reject). *)
Inductive result (A : Type) : Type :=
| Ok (a : A)
| Throw (err : Error).

Arguments Ok {A} a.
Arguments Throw {A} err.

Definition bind {A B : Type} (r : result A) (k : A -> result B) : result B :=
  match r with
  | Ok a => k a
  | Throw err => Throw err
  end.

Notation "x <- r ;; k" := (bind r (fun x => k))
  (at level 61, r at next level, right associativity).

(** ** Settings of the graphs *)

(** [TimeFramePersist]: the sentinel that stands for the remembered time
    frame. *)
Inductive TimeFramePersist : Type := REMEMBER.

(** What the panel imports from [@rotki/common/lib/settings/graphs] and
    from the settings utilities: the enumeration [TimeFramePeriod] with its
    member [TWO_WEEKS], the predicate [isPeriodAllowed], and, for each
    period, the start of its window
    ([timeframes(...)[period].startingDate()], evaluated now).  The panel
    does not depend on how they are defined; they are parameters here. *)
Class TimeFrames : Type := {
  TimeFramePeriod : Type;
  TWO_WEEKS : TimeFramePeriod;
  isPeriodAllowed : TimeFramePeriod -> bool;
  startingDate : TimeFramePeriod -> Z
}.

(** [TimeFrameSetting = TimeFramePeriod | TimeFramePersist] *)
Inductive TimeFrameSetting `{TimeFrames} : Type :=
| Period (p : TimeFramePeriod)
| Persist (p : TimeFramePersist).

(** [NetValue]: the series, times and values side by side. *)
Record NetValue : Type := {
  times : list Z;
  data : list Js.number
}.

(** The sections of the status store that the panel reads. *)
Inductive StatusSection : Type := BLOCKCHAIN_ETH | BLOCKCHAIN_BTC.

(** ** OverallBalances.vue *)

(** [Math.min(1, 12 / digits)], with the quotient taken exactly.  For
    [digits = 0] the quotient is [+Infinity] and the minimum is [1]. *)
Definition fontScale (digits : nat) : Q :=
  match digits with
  | O => 1%Q
  | S _ => Qmin 1 (12 # Pos.of_nat digits)
  end.

(** [s.replace(/ch/g, '')] for a single character [ch]. *)
Fixpoint remove_char (ch : ascii) (s : string) : string :=
  match s with
  | EmptyString => EmptyString
  | String a rest =>
      if Ascii.eqb a ch then remove_char ch rest
      else String a (remove_char ch rest)
  end.

(** The loop
    [for (let i = 1; i < data.length; i++)
       if (data[i] > 0) { start = data[i]; break; }]
    entered at index [i] with [fuel] iterations left. *)
Fixpoint scanForward (data : list Js.number) (i fuel : nat)
                     (start : Js.value) : Js.value :=
  match fuel with
  | O => start
  | S fuel' =>
      if (i <? List.length data)%nat then
        if Js.gt_zero (Js.get data i) then Js.get data i
        else scanForward data (S i) fuel' start
      else start
  end.

(** The body of [startingValue] on the series [data]. *)
Definition startingValueOf (data : list Js.number) : BigNumber.t :=
  let start := Js.get data 0 in
  let start :=
    if Js.strict_eq_zero start
    then scanForward data 1 (List.length data) start
    else start in
  bigNumberify start.

Section Panel.

Context `{TimeFrames}.

(** The side effects of the panel on its collaborators. *)
Inductive Effect : Type :=
| SessionUpdate (timeframe : TimeFramePeriod)
| UpdateSetting (lastKnownTimeframe : TimeFramePeriod)
| FetchNetValue.

(** The reactive state that the panel reads from its stores. *)
Record Stores : Type := {
  timeframe : TimeFramePeriod;
  lastKnownTimeframe : TimeFramePeriod;
  premium : bool;
  logged : bool;
  totalNetWorth : BigNumber.t;
  floatingPrecision : nat;
  getNetValue : Z -> NetValue;
  isSectionLoading : StatusSection -> bool
}.

Definition set_timeframe (p : TimeFramePeriod) (s : Stores) : Stores :=
  {| timeframe := p;
     lastKnownTimeframe := lastKnownTimeframe s;
     premium := premium s;
     logged := logged s;
     totalNetWorth := totalNetWorth s;
     floatingPrecision := floatingPrecision s;
     getNetValue := getNetValue s;
     isSectionLoading := isSectionLoading s |}.

Definition set_lastKnownTimeframe (p : TimeFramePeriod) (s : Stores)
  : Stores :=
  {| timeframe := timeframe s;
     lastKnownTimeframe := p;
     premium := premium s;
     logged := logged s;
     totalNetWorth := totalNetWorth s;
     floatingPrecision := floatingPrecision s;
     getNetValue := getNetValue s;
     isSectionLoading := isSectionLoading s |}.

Definition set_premium (b : bool) (s : Stores) : Stores :=
  {| timeframe := timeframe s;
     lastKnownTimeframe := lastKnownTimeframe s;
     premium := b;
     logged := logged s;
     totalNetWorth := totalNetWorth s;
     floatingPrecision := floatingPrecision s;
     getNetValue := getNetValue s;
     isSectionLoading := isSectionLoading s |}.

(** [logicOr(isSectionLoading(BLOCKCHAIN_ETH),
             isSectionLoading(BLOCKCHAIN_BTC))] *)
Definition isLoading (s : Stores) : bool :=
  isSectionLoading s BLOCKCHAIN_ETH || isSectionLoading s BLOCKCHAIN_BTC.

(** The series of the selected window.  The selection is a
    [TimeFramePeriod]: the resolution [all[selection].startingDate()] has
    no case for the sentinel. *)
Definition timeframeData (s : Stores) : NetValue :=
  let selection := timeframe s in
  getNetValue s (startingDate selection).

Definition startingValue (s : Stores) : BigNumber.t :=
  startingValueOf (data (timeframeData s)).

(** The number of characters of the formatted total once the decimal and
    the grouping separators are removed. *)
Definition digits (s : Stores) : nat :=
  String.length
    (remove_char ","
       (remove_char "."
          (BigNumber.toFormat (floatingPrecision s) (totalNetWorth s)))).

Definition adjustedTotalNetWorthFontSize (s : Stores) : Q :=
  fontScale (digits s).

Definition balanceDelta (s : Stores) : BigNumber.t :=
  BigNumber.minus (totalNetWorth s) (startingValue s).

Definition percentage (s : Stores) : string :=
  let bigNumber :=
    BigNumber.multipliedBy
      (BigNumber.div (balanceDelta s) (startingValue s))
      (BigNumber.of_Z 100) in
  if BigNumber.isFinite bigNumber
  then BigNumber.toFormat 2 bigNumber
  else "-"%string.

Definition indicator (s : Stores) : string :=
  if isLoading s then ""%string
  else if BigNumber.isNegative (balanceDelta s)
       then "mdi-menu-down"%string
       else "mdi-menu-up"%string.

Definition balanceClass (s : Stores) : string :=
  if isLoading s then "rotki-grey lighten-3"%string
  else if BigNumber.isNegative (balanceDelta s)
       then "rotki-red lighten-1"%string
       else "rotki-green"%string.

(** [assert(condition)] *)
Definition assert (condition : bool) : result unit :=
  if condition then Ok tt else Throw PreconditionViolation.

(** [value !== TimeFramePersist.REMEMBER] *)
Definition is_not_remember (value : TimeFrameSetting) : bool :=
  match value with
  | Persist REMEMBER => false
  | Period _ => true
  end.

(** [setTimeframe(value)]: the new state and the effects issued, or the
    failure of the assertion.  Past the assertion the value is a
    [TimeFramePeriod]; the branch for the sentinel is not reached. *)
Definition setTimeframe (value : TimeFrameSetting) (s : Stores)
  : result (Stores * list Effect) :=
  _ <- assert (is_not_remember value) ;;
  match value with
  | Period p =>
      Ok (set_lastKnownTimeframe p (set_timeframe p s),
          [SessionUpdate p; UpdateSetting p])
  | Persist REMEMBER => Throw PreconditionViolation
  end.

(** The callback of [watch(premium, ...)]. *)
Definition onPremiumChanged (s : Stores) : list Effect :=
  if logged s then [FetchNetValue] else [].

(** An assignment to the premium flag: the watcher runs its callback
    when the value has changed. *)
Definition writePremium (b : bool) (s : Stores) : Stores * list Effect :=
  let s' := set_premium b s in
  if Bool.eqb b (premium s) then (s', []) else (s', onPremiumChanged s').

(** The hook [onMounted]. *)
Definition onMounted (s : Stores) : Stores * list Effect :=
  let isPremium := premium s in
  let selectedTimeframe := timeframe s in
  if negb isPremium && negb (isPeriodAllowed selectedTimeframe)
  then (set_timeframe TWO_WEEKS s, [SessionUpdate TWO_WEEKS])
  else (s, []).

End Panel.

(** *** The template and the wiring of the panel *)

(** [v-if="condition"] on an element. *)
Definition v_if {A : Type} (condition : bool) (element : A) : option A :=
  if condition then Some element else None.

(** [chartSectionHeight]: [208 + (showGraphRangeSelector ? 60 : 0)] in
    pixels. *)
Definition chartSectionHeight (showGraphRangeSelector : bool) : string :=
  let height := (208 + (if showGraphRangeSelector then 60 else 0))%N in
  (BigNumber.string_of_N height ++ "px")%string.

Section PanelView.

Context `{TimeFrames}.

(** What the template puts on the screen: the total with its font size,
    the pill with its class and either the spinner or the icon, the delta
    and the percentage, the selector, and either the chart or its loader
    (with the minimal height of the loader). *)
Record View : Type := {
  fontSize : Q;
  netWorthAmount : BigNumber.t;
  pillClass : string;
  loadingSpinner : bool;
  icon : option string;
  deltaAmount : option BigNumber.t;
  percentageDisplay : option string;
  selectorValue : TimeFramePeriod;
  chart : option NetValue;
  chartLoader : option string
}.

(** The template.  The icon, the delta and the percentage sit in the
    [v-else] branch of the spinner; the last two carry a [v-if] of their
    own. *)
Definition render (showGraphRangeSelector : bool) (s : Stores) : View :=
  {| fontSize := adjustedTotalNetWorthFontSize s;
     netWorthAmount := totalNetWorth s;
     pillClass := balanceClass s;
     loadingSpinner := isLoading s;
     icon := if isLoading s then None else Some (indicator s);
     deltaAmount :=
       if isLoading s then None
       else v_if (negb (isLoading s)) (balanceDelta s);
     percentageDisplay :=
       if isLoading s then None
       else v_if (negb (isLoading s)) (percentage s);
     selectorValue := timeframe s;
     chart := v_if (negb (isLoading s)) (timeframeData s);
     chartLoader :=
       if negb (isLoading s) then None
       else Some (chartSectionHeight showGraphRangeSelector) |}.

(** What happens to the panel: it is mounted, the selector emits a value,
    or the premium flag is assigned. *)
Inductive Event : Type :=
| Mounted
| Selected (value : TimeFrameSetting)
| PremiumAssigned (b : bool).

(** One event.  [@input="setTimeframe($event)"]: when the assertion fails
    the handler ends there, and nothing has been updated. *)
Definition handle (event : Event) (s : Stores) : Stores * list Effect :=
  match event with
  | Mounted => onMounted s
  | Selected value =>
      match setTimeframe value s with
      | Ok outcome => outcome
      | Throw _ => (s, [])
      end
  | PremiumAssigned b => writePremium b s
  end.

(** A sequence of events, with the effects in the order they are
    issued. *)
Fixpoint run (events : list Event) (s : Stores) : Stores * list Effect :=
  match events with
  | [] => (s, [])
  | event :: later =>
      let (s', effects) := handle event s in
      let (s'', effects') := run later s' in
      (s'', effects ++ effects')
  end.

End PanelView.

(** ** statistics-api.ts *)

Inductive Method : Type := GET | POST.

(** The values of query and body parameters. *)
Inductive ParamValue : Type :=
| PBool (b : bool)
| PNumber (n : Z)
| PString (s : string).

Definition Params : Type := list (string * ParamValue).

(** A request as axios sends it: [params] is the query string, [payload]
    the body. *)
Record Request : Type := {
  method : Method;
  url : string;
  params : Params;
  payload : Params
}.

(** [AxiosResponse]: the HTTP status and the parsed body. *)
Record AxiosResponse (Json : Type) : Type := {
  status : nat;
  body : Json
}.

Arguments status {Json} _.
Arguments body {Json} _.

(** What the client imports, as parameters: the parsed JSON bodies; the
    status policy [validStatus]; [handleResponse], which unwraps the result
    envelope or throws; [axiosSnakeCaseTransformer]; and the schemas of
    [@rotki/common/lib/statistics] with their [parse], which returns the
    typed value or throws. *)
Class Services : Type := {
  Json : Type;
  validStatus : nat -> bool;
  handleResponse : AxiosResponse Json -> result Json;
  axiosSnakeCaseTransformer : Params -> Params;
  TimedBalances : Type;
  TimedBalances_parse : Json -> option TimedBalances;
  LocationData : Type;
  LocationData_parse : Json -> option LocationData;
  TimedAssetBalances : Type;
  TimedAssetBalances_parse : Json -> option TimedAssetBalances
}.

Section StatisticsApi.

Context `{Services}.

(** The backend, as the answer it gives to each request. *)
Definition Backend : Type := Request -> AxiosResponse Json.

(** A request through [api.instance]: axios rejects the promise when
    [validateStatus] refuses the status of the answer. *)
Definition axios (backend : Backend) (validateStatus : nat -> bool)
                 (request : Request) : result (AxiosResponse Json) :=
  let response := backend request in
  if validateStatus (status response) then Ok response
  else Throw (TransportError (status response)).

Definition api_get (backend : Backend) (path : string) (query : Params)
                   (validateStatus : nat -> bool)
  : result (AxiosResponse Json) :=
  axios backend validateStatus
        {| method := GET; url := path; params := query; payload := [] |}.

Definition api_post (backend : Backend) (path : string) (data : Params)
                    (validateStatus : nat -> bool)
  : result (AxiosResponse Json) :=
  axios backend validateStatus
        {| method := POST; url := path; params := []; payload := data |}.

(** [Schema.parse(value)]: a zod schema throws on a mismatch. *)
Definition parse {A : Type} (schema : Json -> option A) (value : Json)
  : result A :=
  match schema value with
  | Some a => Ok a
  | None => Throw SchemaValidationError
  end.

Definition queryNetValueData (backend : Backend) (includeNfts : bool)
  : result Json :=
  response <-
    api_get backend "/statistics/netvalue"
      (axiosSnakeCaseTransformer [("includeNfts"%string, PBool includeNfts)])
      validStatus ;;
  handleResponse response.

Definition queryTimedBalancesData (backend : Backend) (asset : string)
                                  (fromTimestamp toTimestamp : Z)
  : result TimedBalances :=
  balances <-
    api_post backend "/statistics/balance"
      (axiosSnakeCaseTransformer
         [("fromTimestamp"%string, PNumber fromTimestamp);
          ("toTimestamp"%string, PNumber toTimestamp);
          ("asset"%string, PString asset)])
      validStatus ;;
  unwrapped <- handleResponse balances ;;
  parse TimedBalances_parse unwrapped.

Definition queryLatestLocationValueDistribution (backend : Backend)
  : result LocationData :=
  statistics <-
    api_get backend "/statistics/value_distribution"
      (axiosSnakeCaseTransformer
         [("distributionBy"%string, PString "location")])
      validStatus ;;
  unwrapped <- handleResponse statistics ;;
  parse LocationData_parse unwrapped.

Definition queryLatestAssetValueDistribution (backend : Backend)
  : result TimedAssetBalances :=
  statistics <-
    api_get backend "/statistics/value_distribution"
      (axiosSnakeCaseTransformer
         [("distributionBy"%string, PString "asset")])
      validStatus ;;
  unwrapped <- handleResponse statistics ;;
  parse TimedAssetBalances_parse unwrapped.

Definition queryStatisticsRenderer (backend : Backend) : result Json :=
  response <- api_get backend "/statistics/renderer" [] validStatus ;;
  handleResponse response.

(** The requests that the five operations send. *)
Definition netValueRequest (includeNfts : bool) : Request :=
  {| method := GET; url := "/statistics/netvalue";
     params := axiosSnakeCaseTransformer
                 [("includeNfts"%string, PBool includeNfts)];
     payload := [] |}.

Definition timedBalancesRequest (asset : string)
                                (fromTimestamp toTimestamp : Z) : Request :=
  {| method := POST; url := "/statistics/balance";
     params := [];
     payload := axiosSnakeCaseTransformer
                  [("fromTimestamp"%string, PNumber fromTimestamp);
                   ("toTimestamp"%string, PNumber toTimestamp);
                   ("asset"%string, PString asset)] |}.

Definition distributionRequest (distributionBy : string) : Request :=
  {| method := GET; url := "/statistics/value_distribution";
     params := axiosSnakeCaseTransformer
                 [("distributionBy"%string, PString distributionBy)];
     payload := [] |}.

Definition rendererRequest : Request :=
  {| method := GET; url := "/statistics/renderer";
     params := []; payload := [] |}.

End StatisticsApi.

(** ** Notions used to state the properties *)

(** [x > 0] and [x === 0] on an entry of a series. *)
Definition is_positive (x : Js.number) : bool := Js.gt_zero (Some x).

Definition is_zero (x : Js.number) : bool := Js.strict_eq_zero (Some x).

(** The starting value as the data model words it: the first non-zero
    entry of the series, or zero if there is none. *)
Definition firstNonZero (data : list Js.number) : BigNumber.t :=
  match find (fun x => negb (is_zero x)) data with
  | Some x => bigNumberify (Some x)
  | None => BigNumber.of_Z 0
  end.

(** The number of fetches of the series among the effects. *)
Fixpoint fetches `{TimeFrames} (effects : list Effect) : nat :=
  match effects with
  | [] => O
  | FetchNetValue :: rest => S (fetches rest)
  | _ :: rest => fetches rest
  end.



(** [s] ends with a decimal point and two more characters. *)
Fixpoint two_decimals (s : string) : bool :=
  match s with
  | EmptyString => false
  | String a rest =>
      (Ascii.eqb a "." && (String.length rest =? 2)%nat) || two_decimals rest
  end.

(** [s] begins with a minus sign. *)
Definition starts_with_minus (s : string) : bool :=
  match s with
  | String a _ => Ascii.eqb a "-"
  | EmptyString => false
  end.

(** The [bigNumber] of [percentage], before it is formatted. *)
Definition percentageRatio `{TimeFrames} (s : Stores) : BigNumber.t :=
  BigNumber.multipliedBy
    (BigNumber.div (balanceDelta s) (startingValue s))
    (BigNumber.of_Z 100).

(** The sign bit as a factor. *)
Definition sgnQ (s : bool) : Q := if s then - (1) else 1.

(** The characters that [digits] counts. *)
Definition is_separator (a : ascii) : bool :=
  Ascii.eqb a "." || Ascii.eqb a ",".

Fixpoint count_non_separators (s : string) : nat :=
  match s with
  | EmptyString => O
  | String a rest =>
      if is_separator a then count_non_separators rest
      else S (count_non_separators rest)
  end.

Section ClientNotions.

Context `{Services}.

(** The status policy comes first: a refused status fails the operation
    with the transport error, whatever the envelope holds. *)
Definition status_checked_first {A : Type} (outcome : result A)
                                (response : AxiosResponse Json) : Prop :=
  validStatus (status response) = false ->
  outcome = Throw (TransportError (status response)).

(** The unwrapped result is validated against [schema]: the operation
    returns the typed value, or fails with the schema error. *)
Definition schema_validated {A : Type} (outcome : result A)
                            (schema : Json -> option A)
                            (response : AxiosResponse Json) : Prop :=
  validStatus (status response) = true ->
  forall unwrapped,
    handleResponse response = Ok unwrapped ->
    outcome = match schema unwrapped with
              | Some typed => Ok typed
              | None => Throw SchemaValidationError
              end.

(** The unwrapped result is returned as it is. *)
Definition passed_through (outcome : result Json)
                          (response : AxiosResponse Json) : Prop :=
  validStatus (status response) = true ->
  outcome = handleResponse response.

End ClientNotions.

Section ClientOutcomes.

Context `{Services}.




End ClientOutcomes.

(** ** Instances for the examples *)

Module Example.

(** Five windows; the two shortest need no premium subscription. *)
Inductive period : Type := all | year | month | two_weeks | week.

#[export] Instance timeFrames : TimeFrames := {|
  TimeFramePeriod := period;
  TWO_WEEKS := two_weeks;
  isPeriodAllowed := fun p =>
    match p with two_weeks | week => true | _ => false end;
  startingDate := fun p =>
    match p with
    | all => 0
    | year => 1668211200
    | month => 1697155200
    | two_weeks => 1698537600
    | week => 1699142400
    end%Z
|}.

Definition select (p : period) : TimeFrameSetting := Period p.

(** The effects of selecting the window [p]. *)
Definition notify (p : period) : list Effect :=
  [SessionUpdate p; UpdateSetting p].

(** The effects of a downgrade to [p], and of a fetch. *)
Definition downgrade (p : period) : list Effect := [SessionUpdate p].

Definition fetch : list Effect := [FetchNetValue].

Definition series (values : list Z) : NetValue :=
  {| times := map Z.of_nat (seq 0 (List.length values));
     data := map Js.of_Z values |}.

(** Stores in which every window shows the series [values]. *)
Definition stores (selected : period) (isPremium isLogged : bool)
                  (total : BigNumber.t) (loading : bool)
                  (values : list Z) : Stores :=
  {| timeframe := selected;
     lastKnownTimeframe := selected;
     premium := isPremium;
     logged := isLogged;
     totalNetWorth := total;
     floatingPrecision := 2;
     getNetValue := fun _ => series values;
     isSectionLoading := fun _ => loading |}.

(** A backend that answers every request with one status and body. *)
#[export] Instance services : Services := {|
  Json := string;
  validStatus := fun code => existsb (Nat.eqb code) [200; 400; 409]%nat;
  handleResponse := fun response =>
    if String.eqb (body response) ""
    then Throw (EnvelopeError "no result")
    else Ok (body response);
  axiosSnakeCaseTransformer := fun p => p;
  TimedBalances := unit;
  TimedBalances_parse := fun j =>
    if String.eqb j "balances" then Some tt else None;
  LocationData := unit;
  LocationData_parse := fun j =>
    if String.eqb j "locations" then Some tt else None;
  TimedAssetBalances := unit;
  TimedAssetBalances_parse := fun j =>
    if String.eqb j "assets" then Some tt else None
|}.

Definition backend (code : nat) (answer : string) : Backend :=
  fun _ => {| status := code; body := answer |}.

(** The series [0, 0, 50, 80] against a total of 100. *)
Definition dashboard : Stores :=
  stores month false true (BigNumber.of_Z 100) false [0; 0; 50; 80]%Z.

(** A series with a negative entry after its leading zero. *)
Definition overdrawn : Stores :=
  stores month false true (BigNumber.of_Z 100) false [0; -5; 10]%Z.

(** A series of zeros only. *)
Definition blank : Stores :=
  stores month false true (BigNumber.of_Z 100) false [0; 0; 0]%Z.

(** No data point at all. *)
Definition empty : Stores :=
  stores month false true (BigNumber.of_Z 100) false [].

(** The total equals the starting value. *)
Definition flat : Stores :=
  stores month false true (BigNumber.of_Z 50) false [50; 80]%Z.

(** The total is below the starting value. *)
Definition falling : Stores :=
  stores month false true (BigNumber.of_Z 20) false [50; 80]%Z.

(** The balances are still loading. *)
Definition loading : Stores :=
  stores week false true (BigNumber.of_Z 20) true [50; 80]%Z.

(** A subscriber looking at the year. *)
Definition subscriber : Stores :=
  stores year true true (BigNumber.of_Z 100) false [0; 0; 50; 80]%Z.

(** The series starts below zero. *)
Definition indebted : Stores :=
  stores month false true (BigNumber.of_Z 20) false [-10; 5]%Z.


(** The subscription has lapsed while the year was selected. *)
Definition session : Stores :=
  stores year false true (BigNumber.of_Z 100) false [0; 0; 50; 80]%Z.

(** Stores in which the windows differ: the week starts at 70, the
    longer windows at 40. *)
Definition windowed (selected : period) : Stores :=
  {| timeframe := selected;
     lastKnownTimeframe := selected;
     premium := true;
     logged := true;
     totalNetWorth := BigNumber.of_Z 100;
     floatingPrecision := 2;
     getNetValue := fun start =>
       if (1699142400 <=? start)%Z then series [70; 90; 100]%Z
       else series [40; 70; 90; 100]%Z;
     isSectionLoading := fun _ => false |}.

(** Nobody is logged in. *)
Definition visitor : Stores :=
  stores week false false (BigNumber.of_Z 0) false [].

End Example.

(** * Properties *)

(** ** The starting value *)

Lemma skipn_nth_error {A : Type} (l : list A) :
  forall i x, nth_error l i = Some x -> skipn i l = x :: skipn (S i) l.
Proof.
  induction l as [|a l IH]; intros [|i] x Hx; simpl in *; try discriminate.
  - now inversion Hx.
  - now apply IH.
Qed.

(** With enough fuel to reach the end of the series, the loop returns the
    first strictly positive entry from index [i] on, and leaves [start] as
    it was when there is none. *)
Lemma scanForward_find (data : list Js.number) (start : Js.value) :
  forall fuel i,
    (List.length data <= i + fuel)%nat ->
    scanForward data i fuel start =
    match find is_positive (skipn i data) with
    | Some p => Some p
    | None => start
    end.
Proof.
  induction fuel as [|fuel IH]; intros i Hlen; cbn [scanForward].
  - rewrite skipn_all2 by lia. reflexivity.
  - destruct (Nat.ltb_spec i (List.length data)) as [Hi|Hi].
    + unfold Js.get.
      destruct (nth_error data i) as [x|] eqn:Hx.
      * rewrite (skipn_nth_error data i x Hx). cbn [find].
        unfold is_positive at 1.
        destruct (Js.gt_zero (Some x)); [reflexivity|].
        apply IH. lia.
      * apply nth_error_None in Hx. lia.
    + rewrite skipn_all2 by lia. reflexivity.
Qed.

Lemma startingValueOf_cons (first : Js.number) (rest : list Js.number) :
  startingValueOf (first :: rest) =
  if is_zero first
  then match find is_positive rest with
       | Some p => bigNumberify (Some p)
       | None => bigNumberify (Some first)
       end
  else bigNumberify (Some first).
Proof.
  unfold startingValueOf, is_zero. cbn [Js.get nth_error].
  destruct (Js.strict_eq_zero (Some first)); [|reflexivity].
  rewrite scanForward_find by (simpl; lia).
  cbn [skipn]. now destruct (find is_positive rest).
Qed.

Lemma find_first {A : Type} (p : A -> bool) (pre post : list A) (x : A) :
  Forall (fun y => p y = false) pre -> p x = true ->
  find p (pre ++ x :: post) = Some x.
Proof.
  induction 1 as [|y pre Hy _ IH]; intros Hx; simpl.
  - now rewrite Hx.
  - rewrite Hy. now apply IH.
Qed.

Lemma find_none {A : Type} (p : A -> bool) (l : list A) :
  Forall (fun y => p y = false) l -> find p l = None.
Proof.
  induction 1 as [|y l Hy _ IH]; simpl; [reflexivity|].
  now rewrite Hy.
Qed.

Lemma is_zero_bigNumberify (x : Js.number) :
  is_zero x = true -> BigNumber.isZero (bigNumberify (Some x)) = true.
Proof.
  destruct x; simpl; intros Hx; try discriminate. exact Hx.
Qed.

Section StartingValue.

Context `{TimeFrames}.

(** C1.  The starting value of a fetched series is its first data point;
    when that point is exactly zero it is the first strictly positive
    value found scanning forward; when there is no such value the
    starting value is zero. *)
Theorem startingValue_selection (s : Stores) (first : Js.number)
                                (rest : list Js.number) :
  data (timeframeData s) = first :: rest ->
  (is_zero first = false ->
   startingValue s = bigNumberify (Some first))
  /\ (is_zero first = true ->
      forall pre p post,
        rest = pre ++ p :: post ->
        Forall (fun x => is_positive x = false) pre ->
        is_positive p = true ->
        startingValue s = bigNumberify (Some p))
  /\ (is_zero first = true ->
      Forall (fun x => is_positive x = false) rest ->
      BigNumber.isZero (startingValue s) = true).
Proof.
  intros Hdata. unfold startingValue. rewrite Hdata, startingValueOf_cons.
  repeat split.
  - intros ->. reflexivity.
  - intros -> pre p post -> Hpre Hp.
    now rewrite (find_first _ pre post p Hpre Hp).
  - intros Hz Hrest. rewrite Hz, (find_none _ rest Hrest).
    now apply is_zero_bigNumberify.
Qed.

End StartingValue.

Lemma startingValue_selection_witness :
  startingValue Example.falling = BigNumber.of_Z 50
  /\ startingValue Example.dashboard = BigNumber.of_Z 50
  /\ BigNumber.isZero (startingValue Example.blank) = true.
Proof.
  pose proof (startingValue_selection Example.falling (Js.of_Z 50)
                [Js.of_Z 80] eq_refl) as [Hfirst _].
  pose proof (startingValue_selection Example.dashboard (Js.of_Z 0)
                (map Js.of_Z [0; 50; 80]%Z) eq_refl) as [_ [Hscan _]].
  pose proof (startingValue_selection Example.blank (Js.of_Z 0)
                (map Js.of_Z [0; 0]%Z) eq_refl) as [_ [_ Hnone]].
  split; [|split].
  - exact (Hfirst eq_refl).
  - apply (Hscan eq_refl [Js.of_Z 0] (Js.of_Z 50) [Js.of_Z 80] eq_refl).
    + repeat constructor.
    + reflexivity.
  - apply (Hnone eq_refl). repeat constructor.
Defined.

(** On entries that are zero or strictly positive, being non-zero and
    being strictly positive select the same entry. *)
Lemma find_nonzero_positive (l : list Js.number) :
  Forall (fun x => is_zero x || is_positive x = true) l ->
  find (fun x => negb (is_zero x)) l = find is_positive l.
Proof.
  induction 1 as [|x l Hx _ IH]; simpl; [reflexivity|].
  rewrite IH. clear IH.
  unfold is_zero, is_positive in *.
  destruct x as [|neg|neg c e]; simpl in *.
  - discriminate.
  - now destruct neg.
  - destruct (c =? 0)%N, neg; simpl in *; try reflexivity; discriminate.
Qed.

Section FirstNonZero.

Context `{TimeFrames}.

(** C3 (amended).  For a non-empty series the starting value is the first
    entry when that entry is non-zero, negative values included; when the
    first entry is zero it is the first strictly positive later entry, or
    zero when there is none.  It is the first non-zero entry of the
    series, or zero, whenever every entry after the first is zero or
    strictly positive. *)
Theorem startingValue_first_nonzero (s : Stores) (first : Js.number)
                                    (rest : list Js.number) :
  data (timeframeData s) = first :: rest ->
  (is_zero first = false ->
   startingValue s = firstNonZero (first :: rest))
  /\ (is_zero first = true ->
      startingValue s =
      match find is_positive rest with
      | Some p => bigNumberify (Some p)
      | None => bigNumberify (Some first)
      end)
  /\ (Forall (fun x => is_zero x || is_positive x = true) rest ->
      startingValue s = firstNonZero (first :: rest)
      \/ (BigNumber.isZero (startingValue s) = true
          /\ firstNonZero (first :: rest) = BigNumber.of_Z 0)).
Proof.
  intros Hdata. unfold startingValue. rewrite Hdata, startingValueOf_cons.
  unfold firstNonZero. cbn [find].
  repeat split.
  - intros ->. reflexivity.
  - intros ->. reflexivity.
  - intros Hrest. destruct (is_zero first) eqn:Hz; cbn [negb].
    + rewrite (find_nonzero_positive rest Hrest).
      destruct (find is_positive rest).
      * now left.
      * right. split; [now apply is_zero_bigNumberify | reflexivity].
    + now left.
Qed.

End FirstNonZero.

Lemma startingValue_first_nonzero_witness :
  startingValue Example.falling
  = firstNonZero (data (timeframeData Example.falling))
  /\ startingValue Example.overdrawn = BigNumber.of_Z 10
  /\ startingValue Example.dashboard
     = firstNonZero (data (timeframeData Example.dashboard)).
Proof.
  pose proof (startingValue_first_nonzero Example.falling (Js.of_Z 50)
                [Js.of_Z 80] eq_refl) as [Hfirst _].
  pose proof (startingValue_first_nonzero Example.overdrawn (Js.of_Z 0)
                (map Js.of_Z [-5; 10]%Z) eq_refl) as [_ [Hscan _]].
  pose proof (startingValue_first_nonzero Example.dashboard (Js.of_Z 0)
                (map Js.of_Z [0; 50; 80]%Z) eq_refl) as [_ [_ Hagree]].
  split; [|split].
  - exact (Hfirst eq_refl).
  - exact (Hscan eq_refl).
  - destruct Hagree as [Heq | [_ Hnone]].
    + repeat constructor.
    + exact Heq.
    + discriminate Hnone.
Defined.

(** C3, as the data model words it, fails on the series [0, -5, 10]: the
    first non-zero entry is [-5], and the starting value is [10]. *)
Lemma startingValue_first_nonzero_counterexample :
  data (timeframeData Example.overdrawn) = map Js.of_Z [0; -5; 10]%Z
  /\ firstNonZero (data (timeframeData Example.overdrawn))
     = BigNumber.of_Z (-5)
  /\ startingValue Example.overdrawn = BigNumber.of_Z 10
  /\ startingValue Example.overdrawn
     <> firstNonZero (data (timeframeData Example.overdrawn)).
Proof.
  repeat split; discriminate.
Qed.

(** ** Delta and percentage *)

(** [round_half_up n d] is the integer nearest to [n / d], the upper one
    on a tie. *)
Lemma round_half_up_nearest (n d : N) :
  d <> 0%N ->
  (2 * d * round_half_up n d <= 2 * n + d
   /\ 2 * n + d < 2 * d * (round_half_up n d + 1))%N.
Proof.
  intros Hd. unfold round_half_up.
  assert (Hd2 : (2 * d <> 0)%N) by lia.
  pose proof (N.div_mod (2 * n + d) (2 * d) Hd2) as Hdiv.
  pose proof (N.mod_lt (2 * n + d) (2 * d) Hd2) as Hmod.
  rewrite N.mul_add_distr_l, N.mul_1_r.
  set (q := ((2 * n + d) / (2 * d))%N) in *.
  set (r := ((2 * n + d) mod (2 * d))%N) in *.
  set (m := (2 * d * q)%N) in *.
  clearbody m r. lia.
Qed.

(** *** The values of [minus], [div] and [multipliedBy] *)

Lemma ten_nonzero : ~ (10 == 0)%Q.
Proof. discriminate. Qed.

Lemma pow10_Q (k : Z) :
  (0 <= k)%Z -> inject_Z (Z.of_N (pow10 k)) == 10 ^ k.
Proof.
  intros Hk. unfold pow10.
  rewrite N2Z.inj_pow, Z2N.id by exact Hk.
  now rewrite Zpower_Qpower.
Qed.

Lemma pow10_nonpositive (k : Z) : (k <= 0)%Z -> pow10 k = 1%N.
Proof.
  intros Hk. unfold pow10.
  destruct k; try reflexivity. lia.
Qed.

Lemma signed_mul (neg : bool) (c m : N) :
  signed neg (c * m) = (signed neg c * Z.of_N m)%Z.
Proof. unfold signed. destruct neg; lia. Qed.


Lemma shift_Q (z : Z) (e1 e : Z) :
  (e <= e1)%Z ->
  inject_Z (z * Z.of_N (pow10 (e1 - e))) * 10 ^ e == inject_Z z * 10 ^ e1.
Proof.
  intros Hle. rewrite inject_Z_mult, pow10_Q by lia.
  rewrite <- Qmult_assoc, <- Qpower_plus by apply ten_nonzero.
  now replace (e1 - e + e)%Z with e1 by lia.
Qed.


Lemma signed_Q (s : bool) (c : N) :
  inject_Z (signed s c) == sgnQ s * inject_Z (Z.of_N c).
Proof.
  unfold signed, sgnQ. destruct s.
  - rewrite inject_Z_opp. ring.
  - ring.
Qed.

Lemma inject_N_nonzero (c : N) : c <> 0%N -> ~ inject_Z (Z.of_N c) == 0.
Proof.
  intros Hc Heq. unfold Qeq in Heq. simpl in Heq. lia.
Qed.

Lemma inject_N_pos (c : N) : c <> 0%N -> 0 < inject_Z (Z.of_N c).
Proof.
  intros Hc. change 0 with (inject_Z 0). rewrite <- Zlt_Qlt. lia.
Qed.

Lemma scaled_quotient (c1 c2 : N) (k : Z) :
  c2 <> 0%N ->
  inject_Z (Z.of_N (c1 * pow10 k)) / inject_Z (Z.of_N (c2 * pow10 (- k)))
  == inject_Z (Z.of_N c1) / inject_Z (Z.of_N c2) * 10 ^ k.
Proof.
  intros Hc2. pose proof (inject_N_nonzero c2 Hc2) as Hq.
  rewrite !N2Z.inj_mul, !inject_Z_mult.
  destruct (Z.le_gt_cases 0 k) as [Hk|Hk].
  - rewrite (pow10_nonpositive (- k)) by lia.
    rewrite pow10_Q by exact Hk.
    change (inject_Z (Z.of_N 1)) with 1. now field.
  - rewrite (pow10_nonpositive k) by lia.
    rewrite pow10_Q by lia. rewrite Qpower_opp.
    change (inject_Z (Z.of_N 1)) with 1.
    pose proof (Qpower_not_0 10 k ten_nonzero) as Hp.
    now field.
Qed.

(** In the rationals: the rounded quotient is within a half of the
    quotient. *)
Lemma round_half_up_Q (n d : N) :
  d <> 0%N ->
  Qabs (inject_Z (Z.of_N (round_half_up n d))
        - inject_Z (Z.of_N n) / inject_Z (Z.of_N d)) <= 1 # 2.
Proof.
  intros Hd.
  destruct (round_half_up_nearest n d Hd) as [Hlow Hhigh].
  pose proof (inject_N_pos d Hd) as Hpos.
  set (q := round_half_up n d) in *.
  assert (Hl : 2 * inject_Z (Z.of_N d) * inject_Z (Z.of_N q)
               <= 2 * inject_Z (Z.of_N n) + inject_Z (Z.of_N d)).
  { unfold Qle, Qmult, Qplus, inject_Z. cbn [Qnum Qden Pos.mul]. lia. }
  assert (Hh : 2 * inject_Z (Z.of_N n) + inject_Z (Z.of_N d)
               <= 2 * inject_Z (Z.of_N d) * (inject_Z (Z.of_N q) + 1)).
  { unfold Qle, Qmult, Qplus, inject_Z. cbn [Qnum Qden Pos.mul]. lia. }
  set (D := inject_Z (Z.of_N d)) in *.
  set (Nn := inject_Z (Z.of_N n)) in *.
  set (Qq := inject_Z (Z.of_N q)) in *.
  assert (Hx : Nn == Nn / D * D) by (field; lra).
  rewrite Hx in Hl, Hh. clear Hx.
  set (x := Nn / D) in *.
  apply Qabs_Qle_condition. split.
  - apply (Qmult_le_l _ _ D Hpos). nra.
  - apply (Qmult_le_l _ _ D Hpos). nra.
Qed.



Lemma sgnQ_nonzero (s : bool) : ~ sgnQ s == 0.
Proof. destruct s; discriminate. Qed.




(** The decimal that [toFormat] prints is the value scaled by [10^dp] and
    rounded to the nearest integer. *)
Lemma scaled_nearest (c : N) (e : Z) (dp : nat) :
  Qabs (inject_Z (Z.of_N (BigNumber.scaled c e dp))
        - inject_Z (Z.of_N c) * 10 ^ (e + Z.of_nat dp)) <= 1 # 2.
Proof.
  unfold BigNumber.scaled. set (k := (e + Z.of_nat dp)%Z).
  assert (Hd : (1 * pow10 (- k))%N <> 0%N).
  { unfold pow10. pose proof (N.pow_nonzero 10 (Z.to_N (- k))). lia. }
  pose proof (round_half_up_Q (c * pow10 k) (1 * pow10 (- k)) Hd) as Hnear.
  rewrite scaled_quotient in Hnear by discriminate.
  rewrite N.mul_1_l in Hnear.
  change (inject_Z (Z.of_N 1)) with 1 in Hnear.
  setoid_replace (inject_Z (Z.of_N c) / 1 * 10 ^ k)
    with (inject_Z (Z.of_N c) * 10 ^ k) in Hnear by (field; discriminate).
  exact Hnear.
Qed.

(** *** Finiteness of the ratio *)


Lemma div_finite (x : BigNumber.t) (b : bool) (c : N) (e : Z) :
  BigNumber.isFinite (BigNumber.div x (BigNumber.Finite b c e))
  = BigNumber.isFinite x && negb (c =? 0)%N.
Proof.
  destruct x as [|a|a c1 e1]; try reflexivity.
  unfold BigNumber.div.
  destruct (c =? 0)%N, (c1 =? 0)%N; reflexivity.
Qed.

Lemma times_100_finite (x : BigNumber.t) :
  BigNumber.isFinite (BigNumber.multipliedBy x (BigNumber.of_Z 100))
  = BigNumber.isFinite x.
Proof.
  destruct x as [|a|a c e]; try reflexivity.
  change (BigNumber.of_Z 100) with (BigNumber.Finite false 100 0).
  unfold BigNumber.multipliedBy.
  now destruct ((c =? 0)%N || (100 =? 0)%N).
Qed.




Section Percentage.

Context `{TimeFrames}.


End Percentage.


(** The worked example of the specification: the series [0, 0, 50, 80]
    against a total of 100. *)
Example dashboard_values :
  startingValue Example.dashboard = BigNumber.of_Z 50
  /\ balanceDelta Example.dashboard = BigNumber.of_Z 50
  /\ percentage Example.dashboard = "100.00"%string
  /\ indicator Example.dashboard = "mdi-menu-up"%string.
Proof. repeat split. Qed.

Example falling_values :
  balanceDelta Example.falling = BigNumber.of_Z (-30)
  /\ percentage Example.falling = "-60.00"%string
  /\ indicator Example.falling = "mdi-menu-down"%string
  /\ balanceClass Example.falling = "rotki-red lighten-1"%string.
Proof. repeat split. Qed.

(** ** The font scale *)

Lemma fontScale_le_1 (d : nat) : (fontScale d <= 1)%Q.
Proof.
  destruct d as [|d]; simpl.
  - apply Qle_refl.
  - apply Q.le_min_l.
Qed.

Lemma fontScale_antitone (d1 d2 : nat) :
  (d1 <= d2)%nat -> (fontScale d2 <= fontScale d1)%Q.
Proof.
  intros Hle. destruct d1 as [|d1].
  - apply fontScale_le_1.
  - destruct d2 as [|d2]; [lia|].
    unfold fontScale. apply Q.min_le_compat_l.
    unfold Qle. cbn [Qnum Qden].
    rewrite <- !Pos.of_nat_succ, !Zpos_P_of_succ_nat.
    lia.
Qed.

Lemma remove_separators_length (s : string) :
  String.length (remove_char "," (remove_char "." s))
  = count_non_separators s.
Proof.
  induction s as [|a s IH]; [reflexivity|].
  cbn [remove_char count_non_separators]. unfold is_separator.
  destruct (Ascii.eqb a ".") eqn:Hdot; cbn [orb]; [exact IH|].
  cbn [remove_char].
  destruct (Ascii.eqb a ","); cbn [String.length]; now rewrite ?IH.
Qed.

Section FontSize.

Context `{TimeFrames}.

(** C8.  The font scale does not grow with the digit count and never
    exceeds 1; the digit count of the panel is the number of characters
    of the formatted total that are neither the decimal nor the grouping
    separator. *)
Theorem fontScale_monotone (s : Stores) (d1 d2 : nat) :
  (d1 <= d2)%nat ->
  (fontScale d2 <= fontScale d1)%Q
  /\ (fontScale d1 <= 1)%Q
  /\ (fontScale d2 <= 1)%Q
  /\ digits s
     = count_non_separators
         (BigNumber.toFormat (floatingPrecision s) (totalNetWorth s))
  /\ adjustedTotalNetWorthFontSize s = fontScale (digits s)
  /\ (adjustedTotalNetWorthFontSize s <= 1)%Q.
Proof.
  intros Hle. repeat split.
  - now apply fontScale_antitone.
  - apply fontScale_le_1.
  - apply fontScale_le_1.
  - apply remove_separators_length.
  - apply fontScale_le_1.
Qed.

End FontSize.

Lemma fontScale_monotone_witness :
  (fontScale 16 <= fontScale 9)%Q
  /\ digits Example.dashboard = 5%nat.
Proof.
  pose proof (fontScale_monotone Example.dashboard 9 16) as Hscale.
  destruct Hscale as [Hmono [_ [_ [Hdigits _]]]].
  - repeat constructor.
  - split; [exact Hmono | rewrite Hdigits; reflexivity].
Defined.

Example fontScale_values :
  fontScale 9 = 1%Q
  /\ fontScale 12 = 1%Q
  /\ fontScale 16 = (12 # 16)%Q
  /\ BigNumber.toFormat 2 (BigNumber.Finite false 1234567891 (-3))
     = "1,234,567.89"%string
  /\ count_non_separators "1,234,567.89" = 9%nat.
Proof. repeat split. Qed.

(** ** Indicator and colour *)


Section Indicator.

Context `{TimeFrames}.



End Indicator.



(** The negative zero is the one zero that [isNegative] reports: it is the
    delta of a total of [-0] against a start of [+0] only. *)
Example negative_zero_delta :
  BigNumber.minus (BigNumber.Finite true 0 0) (BigNumber.Finite false 0 0)
  = BigNumber.Finite true 0 0
  /\ BigNumber.minus (BigNumber.Finite true 0 0) (BigNumber.Finite true 0 0)
     = BigNumber.of_Z 0
  /\ BigNumber.minus (BigNumber.Finite false 0 0) (BigNumber.Finite true 0 0)
     = BigNumber.of_Z 0
  /\ BigNumber.isNegative (BigNumber.Finite true 0 0) = true.
Proof. repeat split. Qed.

(** ** Time frame, mount and entitlement *)

Section TimeFrameSelection.

Context `{TimeFrames}.


(** C5.  On mount, without premium and with a selected window that is not
    allowed, the selection becomes the two-week window; with premium, or
    with an allowed window, nothing changes.  The hook issues no fetch. *)
Theorem onMounted_downgrade (s : Stores) :
  (premium s = false ->
   isPeriodAllowed (timeframe s) = false ->
   onMounted s = (set_timeframe TWO_WEEKS s, [SessionUpdate TWO_WEEKS])
   /\ timeframe (fst (onMounted s)) = TWO_WEEKS)
  /\ (premium s = true \/ isPeriodAllowed (timeframe s) = true ->
      onMounted s = (s, []))
  /\ ~ In FetchNetValue (snd (onMounted s)).
Proof.
  unfold onMounted. split; [|split].
  - intros Hp Ha. now rewrite Hp, Ha.
  - intros [Hp | Ha]; rewrite ?Hp, ?Ha; [reflexivity|].
    now rewrite andb_false_r.
  - destruct (negb (premium s) && negb (isPeriodAllowed (timeframe s)));
      cbn; intros Hin; [destruct Hin as [Hin|[]]; discriminate | exact Hin].
Qed.

(** C6.  When the premium flag changes, the series is fetched again if
    and only if the user is logged in; without a logged-in user the
    watcher issues nothing, on any assignment to the flag. *)
Theorem premium_refetch (s : Stores) (b : bool) :
  (b <> premium s ->
   (In FetchNetValue (snd (writePremium b s)) <-> logged s = true)
   /\ (logged s = true -> snd (writePremium b s) = [FetchNetValue]))
  /\ (logged s = false -> snd (writePremium b s) = [])
  /\ (b = premium s -> snd (writePremium b s) = []).
Proof.
  unfold writePremium, onPremiumChanged. cbn [logged set_premium].
  repeat split.
  - destruct (Bool.eqb b (premium s)) eqn:Heq.
    + apply Bool.eqb_prop in Heq. contradiction.
    + cbn [snd]. destruct (logged s); [reflexivity|]. intros [].
  - intros Hl. rewrite Hl.
    destruct (Bool.eqb b (premium s)) eqn:Heq.
    + apply Bool.eqb_prop in Heq. contradiction.
    + now left.
  - intros Hl. rewrite Hl.
    destruct (Bool.eqb b (premium s)) eqn:Heq.
    + apply Bool.eqb_prop in Heq. contradiction.
    + reflexivity.
  - intros Hl. rewrite Hl. now destruct (Bool.eqb b (premium s)).
  - intros ->. now rewrite Bool.eqb_reflx.
Qed.

End TimeFrameSelection.


Lemma onMounted_downgrade_witness :
  timeframe Example.dashboard = Example.month
  /\ timeframe (fst (onMounted Example.dashboard)) = Example.two_weeks
  /\ onMounted Example.subscriber = (Example.subscriber, [])
  /\ onMounted Example.loading = (Example.loading, []).
Proof.
  split; [reflexivity|]. split; [|split].
  - exact (proj2 (proj1 (onMounted_downgrade Example.dashboard)
                    eq_refl eq_refl)).
  - exact (proj1 (proj2 (onMounted_downgrade Example.subscriber))
             (or_introl eq_refl)).
  - exact (proj1 (proj2 (onMounted_downgrade Example.loading))
             (or_intror eq_refl)).
Defined.

Lemma premium_refetch_witness :
  snd (writePremium true Example.dashboard) = [FetchNetValue]
  /\ snd (writePremium true Example.visitor) = []
  /\ snd (writePremium false Example.dashboard) = [].
Proof.
  pose proof (premium_refetch Example.dashboard true) as [Hchange _].
  pose proof (premium_refetch Example.visitor true) as [_ [Hvisitor _]].
  pose proof (premium_refetch Example.dashboard false) as [_ [_ Hsame]].
  split; [|split].
  - refine (proj2 (Hchange _) eq_refl). discriminate.
  - exact (Hvisitor eq_refl).
  - exact (Hsame eq_refl).
Defined.

(** ** The statistics client *)

Section Client.

Context `{Services}.

(** C7.  Every operation applies the status policy before the envelope is
    unwrapped.  The timed balances and the two distributions validate the
    unwrapped result against their schema and fail with the schema error
    on a mismatch; the renderer, like the net value, returns the
    unwrapped result as it is. *)
Theorem statistics_validation (backend : Backend) (includeNfts : bool)
                              (asset : string)
                              (fromTimestamp toTimestamp : Z) :
  (status_checked_first
     (queryNetValueData backend includeNfts)
     (backend (netValueRequest includeNfts))
   /\ status_checked_first
        (queryTimedBalancesData backend asset fromTimestamp toTimestamp)
        (backend (timedBalancesRequest asset fromTimestamp toTimestamp))
   /\ status_checked_first
        (queryLatestLocationValueDistribution backend)
        (backend (distributionRequest "location"))
   /\ status_checked_first
        (queryLatestAssetValueDistribution backend)
        (backend (distributionRequest "asset"))
   /\ status_checked_first
        (queryStatisticsRenderer backend)
        (backend rendererRequest))
  /\ (schema_validated
        (queryTimedBalancesData backend asset fromTimestamp toTimestamp)
        TimedBalances_parse
        (backend (timedBalancesRequest asset fromTimestamp toTimestamp))
      /\ schema_validated
           (queryLatestLocationValueDistribution backend)
           LocationData_parse
           (backend (distributionRequest "location"))
      /\ schema_validated
           (queryLatestAssetValueDistribution backend)
           TimedAssetBalances_parse
           (backend (distributionRequest "asset")))
  /\ (passed_through
        (queryStatisticsRenderer backend)
        (backend rendererRequest)
      /\ passed_through
           (queryNetValueData backend includeNfts)
           (backend (netValueRequest includeNfts))).
Proof.
  unfold status_checked_first, schema_validated, passed_through.
  unfold queryNetValueData, queryTimedBalancesData,
    queryLatestLocationValueDistribution,
    queryLatestAssetValueDistribution, queryStatisticsRenderer.
  unfold api_get, api_post, axios, parse.
  fold (netValueRequest includeNfts).
  fold (timedBalancesRequest asset fromTimestamp toTimestamp).
  fold (distributionRequest "location").
  fold (distributionRequest "asset").
  fold rendererRequest.
  repeat split; intros Hstatus; rewrite Hstatus; cbn [bind];
    try reflexivity; intros unwrapped ->; reflexivity.
Qed.

End Client.

Lemma statistics_validation_witness :
  queryTimedBalancesData (Example.backend 200 "nonsense") "ETH" 0 10
  = Throw SchemaValidationError
  /\ queryStatisticsRenderer (Example.backend 200 "nonsense")
     = Ok ("nonsense"%string : @Json Example.services)
  /\ queryLatestLocationValueDistribution (Example.backend 500 "locations")
     = Throw (TransportError 500).
Proof.
  pose proof (statistics_validation (Example.backend 200 "nonsense")
                true "ETH" 0 10) as [_ [[Hbalances _] [Hrenderer _]]].
  pose proof (statistics_validation (Example.backend 500 "locations")
                true "ETH" 0 10) as [[_ [_ [Hlocation _]]] _].
  split; [|split].
  - exact (Hbalances eq_refl "nonsense"%string eq_refl).
  - exact (Hrenderer eq_refl).
  - exact (Hlocation eq_refl).
Defined.

Example client_values :
  queryTimedBalancesData (Example.backend 200 "balances") "ETH" 0 10
  = Ok tt
  /\ queryLatestAssetValueDistribution (Example.backend 200 "locations")
     = Throw SchemaValidationError
  /\ queryStatisticsRenderer (Example.backend 404 "nonsense")
     = Throw (TransportError 404)
  /\ queryNetValueData (Example.backend 200 "") true
     = Throw (EnvelopeError "no result").
Proof. repeat split. Qed.

(** * Further properties of the panel *)

(** ** The starting value and the shape of the series *)

Lemma find_app_some {A : Type} (p : A -> bool) (l more : list A) (x : A) :
  find p l = Some x -> find p (l ++ more) = Some x.
Proof.
  induction l as [|y l IH]; simpl; [discriminate|].
  destruct (p y); [trivial | exact IH].
Qed.

Lemma find_app_none {A : Type} (p : A -> bool) (l more : list A) :
  find p l = None -> find p (l ++ more) = find p more.
Proof.
  induction l as [|y l IH]; simpl; [reflexivity|].
  destruct (p y); [discriminate | exact IH].
Qed.

Lemma find_filter {A : Type} (p : A -> bool) (l : list A) :
  find p (filter p l) = find p l.
Proof.
  induction l as [|y l IH]; simpl; [reflexivity|].
  destruct (p y) eqn:Hy; simpl; [now rewrite Hy | exact IH].
Qed.

Lemma positive_bigNumberify (p : Js.number) :
  is_positive p = true ->
  BigNumber.isNaN (bigNumberify (Some p)) = false
  /\ BigNumber.isNegative (bigNumberify (Some p)) = false
  /\ BigNumber.isZero (bigNumberify (Some p)) = false.
Proof.
  unfold is_positive. destruct p as [|neg|neg c e]; simpl.
  - discriminate.
  - destruct neg; [discriminate | now intros _].
  - destruct neg, (c =? 0)%N; simpl; try discriminate. now intros _.
Qed.

Section SeriesShape.

Context `{TimeFrames}.

(** X1.  The starting value of a non-empty series is one of its entries: the
    panel never makes a value up. *)
Theorem startingValue_member (s : Stores) :
  data (timeframeData s) <> [] ->
  exists x,
    In x (data (timeframeData s))
    /\ startingValue s = bigNumberify (Some x).
Proof.
  unfold startingValue.
  destruct (data (timeframeData s)) as [|first rest]; [contradiction|].
  intros _. rewrite startingValueOf_cons.
  destruct (is_zero first).
  - destruct (find is_positive rest) as [p|] eqn:Hfind.
    + apply find_some in Hfind. exists p. split; [right; tauto | reflexivity].
    + exists first. split; [now left | reflexivity].
  - exists first. split; [now left | reflexivity].
Qed.

(** X2.  After a leading zero the starting value is never NaN and never below
    zero: it is strictly positive, or it is that zero. *)
Theorem startingValue_after_zero (s : Stores) (first : Js.number)
                                 (rest : list Js.number) :
  data (timeframeData s) = first :: rest ->
  is_zero first = true ->
  BigNumber.isNaN (startingValue s) = false
  /\ (BigNumber.isZero (startingValue s) = true
      \/ BigNumber.isNegative (startingValue s) = false).
Proof.
  intros Hdata Hz. unfold startingValue.
  rewrite Hdata, startingValueOf_cons, Hz.
  destruct (find is_positive rest) as [p|] eqn:Hfind.
  - apply find_some in Hfind. destruct Hfind as [_ Hp].
    destruct (positive_bigNumberify p Hp) as [Hnan [Hneg _]].
    split; [exact Hnan | now right].
  - pose proof (is_zero_bigNumberify first Hz) as Hzero.
    split; [|now left].
    destruct first; simpl in *; try discriminate. reflexivity.
Qed.

End SeriesShape.

Lemma startingValue_member_witness :
  exists x,
    In x (data (timeframeData Example.overdrawn))
    /\ startingValue Example.overdrawn = bigNumberify (Some x).
Proof.
  apply (startingValue_member Example.overdrawn). discriminate.
Defined.

Lemma startingValue_after_zero_witness :
  BigNumber.isNaN (startingValue Example.overdrawn) = false
  /\ (BigNumber.isZero (startingValue Example.overdrawn) = true
      \/ BigNumber.isNegative (startingValue Example.overdrawn) = false).
Proof.
  exact (startingValue_after_zero Example.overdrawn (Js.of_Z 0)
           (map Js.of_Z [-5; 10]%Z) eq_refl eq_refl).
Defined.

(** X3.  Once a series has a starting value that is not zero, the points that
    come later do not change it; while the starting value is still zero,
    the first strictly positive point to arrive becomes it. *)
Theorem startingValueOf_append (data more : list Js.number) :
  data <> [] ->
  (BigNumber.isZero (startingValueOf data) = false ->
   startingValueOf (data ++ more) = startingValueOf data)
  /\ (Forall (fun x => is_zero x = true) data ->
      forall p, is_positive p = true ->
      startingValueOf (data ++ p :: more) = bigNumberify (Some p)).
Proof.
  destruct data as [|first rest]; [contradiction|]. intros _. split.
  - rewrite <- app_comm_cons, !startingValueOf_cons.
    destruct (is_zero first) eqn:Hz; [|reflexivity].
    destruct (find is_positive rest) as [q|] eqn:Hfind.
    + now rewrite (find_app_some _ rest more q Hfind).
    + now rewrite (is_zero_bigNumberify first Hz).
  - intros Hall p Hp. inversion Hall as [|? ? Hfirst Hrest]; subst.
    rewrite <- app_comm_cons, startingValueOf_cons, Hfirst.
    assert (Hnone : find is_positive rest = None).
    { apply find_none. eapply Forall_impl; [|exact Hrest].
      intros x Hx. unfold is_zero, is_positive in *.
      destruct x as [|neg|neg c e]; simpl in *; try discriminate.
      rewrite Hx. now destruct neg. }
    rewrite (find_app_none _ rest (p :: more) Hnone). simpl. now rewrite Hp.
Qed.

Lemma startingValueOf_append_witness :
  startingValueOf (map Js.of_Z [0; 50]%Z ++ map Js.of_Z [80; 0]%Z)
  = startingValueOf (map Js.of_Z [0; 50]%Z)
  /\ startingValueOf (map Js.of_Z [0; 0]%Z ++ Js.of_Z 7 :: [Js.of_Z 9])
     = BigNumber.of_Z 7.
Proof.
  assert (Hne : forall l, map Js.of_Z (0 :: l)%Z <> []) by discriminate.
  split.
  - exact (proj1 (startingValueOf_append _ (map Js.of_Z [80; 0]%Z)
                    (Hne [50%Z])) eq_refl).
  - apply (proj2 (startingValueOf_append _ [Js.of_Z 9] (Hne [0%Z]))).
    + repeat constructor.
    + reflexivity.
Defined.

(** X4.  Only the first entry and the strictly positive entries count: with a
    first entry that is not zero the rest of the series is irrelevant, and
    after a leading zero every entry that is not strictly positive can be
    dropped. *)
Theorem startingValueOf_relevant (first : Js.number)
                                 (rest : list Js.number) :
  (is_zero first = false ->
   startingValueOf (first :: rest) = startingValueOf [first])
  /\ (is_zero first = true ->
      startingValueOf (first :: rest)
      = startingValueOf (first :: filter is_positive rest)).
Proof.
  rewrite !startingValueOf_cons. split; intros Hz; rewrite Hz.
  - reflexivity.
  - now rewrite find_filter.
Qed.

Lemma startingValueOf_relevant_witness :
  startingValueOf (map Js.of_Z [-3; 8; 0]%Z) = BigNumber.of_Z (-3)
  /\ startingValueOf (map Js.of_Z [0; -5; 0; 10; -1]%Z)
     = startingValueOf (map Js.of_Z [0; 10]%Z).
Proof.
  split.
  - exact (proj1 (startingValueOf_relevant (Js.of_Z (-3))
                    (map Js.of_Z [8; 0]%Z)) eq_refl).
  - exact (proj2 (startingValueOf_relevant (Js.of_Z 0)
                    (map Js.of_Z [-5; 0; 10; -1]%Z)) eq_refl).
Defined.

(** ** The delta against the values *)

Lemma pow10_nonzero (k : Z) : pow10 k <> 0%N.
Proof. unfold pow10. apply N.pow_nonzero. discriminate. Qed.

(** The aligned difference that [minus] computes, as a rational. *)
Lemma minus_scaled (a b : bool) (c1 c2 : N) (e1 e2 : Z) :
  inject_Z (signed a (c1 * pow10 (e1 - Z.min e1 e2))
            - signed b (c2 * pow10 (e2 - Z.min e1 e2)))
  * 10 ^ Z.min e1 e2
  == BigNumber.to_Q (BigNumber.Finite a c1 e1)
     - BigNumber.to_Q (BigNumber.Finite b c2 e2).
Proof.
  rewrite !signed_mul. unfold Z.sub at 1.
  rewrite inject_Z_plus, inject_Z_opp, Qmult_plus_distr_l.
  unfold BigNumber.to_Q, Qminus.
  rewrite <- (shift_Q (signed a c1) e1 (Z.min e1 e2)) by lia.
  rewrite <- (shift_Q (signed b c2) e2 (Z.min e1 e2)) by lia.
  ring.
Qed.

Lemma inject_Z_sign (r : Z) (P D : Q) :
  0 < P -> inject_Z r * P == D ->
  (r = 0%Z <-> D == 0) /\ ((r < 0)%Z <-> D < 0).
Proof.
  intros HP HD.
  assert (Hneg : (r < 0)%Z -> inject_Z r < 0)
    by (intros Hr; change 0 with (inject_Z 0); now rewrite <- Zlt_Qlt).
  assert (Hpos : (0 < r)%Z -> 0 < inject_Z r)
    by (intros Hr; change 0 with (inject_Z 0); now rewrite <- Zlt_Qlt).
  destruct (Z.lt_trichotomy r 0) as [Hr | [Hr | Hr]].
  - specialize (Hneg Hr). split; split; intros; try lia; nra.
  - subst r. change (inject_Z 0) with 0 in HD.
    split; split; intros; try lia; try reflexivity; nra.
  - specialize (Hpos Hr). split; split; intros; try lia; nra.
Qed.

(** The delta of two finite values is zero exactly when they are equal,
    and carries the negative sign exactly when the first is below the
    second, or when it is [-0 - (+0)]. *)
Lemma minus_sign (a b : bool) (c1 c2 : N) (e1 e2 : Z) :
  let x := BigNumber.Finite a c1 e1 in
  let y := BigNumber.Finite b c2 e2 in
  (BigNumber.isZero (BigNumber.minus x y) = true
   <-> BigNumber.to_Q x == BigNumber.to_Q y)
  /\ (BigNumber.isNegative (BigNumber.minus x y) = true
      <-> BigNumber.to_Q x < BigNumber.to_Q y
          \/ (c1 = 0%N /\ a = true /\ b = false)).
Proof.
  intros x y.
  pose proof (minus_scaled a b c1 c2 e1 e2) as Hr. fold x y in Hr.
  pose proof (Qpower_0_lt 10 (Z.min e1 e2) eq_refl) as HP.
  destruct (inject_Z_sign _ _ _ HP Hr) as [Hzero Hneg].
  unfold x at 1 3, y at 1 3, BigNumber.minus.
  set (r := (signed a (c1 * pow10 (e1 - Z.min e1 e2))
             - signed b (c2 * pow10 (e2 - Z.min e1 e2)))%Z) in *.
  destruct (Z.eqb_spec r 0) as [Hr0|Hr0];
    cbn [BigNumber.isZero BigNumber.isNegative].
  - apply Hzero in Hr0. split.
    + split; intros _; [lra | reflexivity].
    + split.
      * intros Hs. right.
        destruct (N.eqb_spec c1 0), a, b; try discriminate. tauto.
      * intros [Hlt | (-> & -> & ->)]; [lra | reflexivity].
  - split.
    + split.
      * intros Hz. apply N.eqb_eq in Hz. lia.
      * intros Heq. exfalso. apply Hr0, Hzero. lra.
    + rewrite Z.ltb_lt. split.
      * intros Hlt. left. apply Hneg in Hlt. lra.
      * intros [Hlt | (Hc1 & Ha & Hb)]; [apply Hneg; lra|].
        unfold r, signed in *. rewrite Hc1, Ha, Hb in *.
        rewrite N.mul_0_l in *. lia.
Qed.

Lemma minus_self_value (a b : bool) (c1 c2 : N) (e1 e2 : Z) :
  c2 <> 0%N ->
  BigNumber.to_Q (BigNumber.Finite a c1 e1)
  == BigNumber.to_Q (BigNumber.Finite b c2 e2) ->
  c1 <> 0%N.
Proof.
  intros Hc2 Heq ->. unfold BigNumber.to_Q in Heq.
  rewrite !signed_Q in Heq. change (inject_Z (Z.of_N 0)) with 0 in Heq.
  pose proof (inject_N_nonzero c2 Hc2) as HC.
  pose proof (Qpower_not_0 10 e2 ten_nonzero) as HP.
  pose proof (sgnQ_nonzero b) as Hb.
  assert (Hprod : sgnQ b * inject_Z (Z.of_N c2) * 10 ^ e2 == 0)
    by (rewrite <- Heq; ring).
  apply Qmult_integral in Hprod. destruct Hprod as [Hprod|]; [|tauto].
  apply Qmult_integral in Hprod. tauto.
Qed.

(** The percentage of a delta that is zero, against a start that is
    not. *)
Lemma zero_delta_ratio (x : BigNumber.t) (b : bool) (c2 : N) (e2 : Z) :
  c2 <> 0%N ->
  BigNumber.isZero x = true ->
  BigNumber.toFormat 2
    (BigNumber.multipliedBy (BigNumber.div x (BigNumber.Finite b c2 e2))
                            (BigNumber.of_Z 100))
  = "0.00"%string.
Proof.
  intros Hc2 Hx. destruct x as [| |a c1 e1]; try discriminate.
  cbn [BigNumber.isZero] in Hx. unfold BigNumber.div.
  destruct (N.eqb_spec c2 0) as [|_]; [contradiction|]. rewrite Hx.
  now destruct a, b.
Qed.

Section DeltaSign.

Context `{TimeFrames}.

Lemma glyph_by_sign (s : Stores) :
  isLoading s = false ->
  (indicator s = "mdi-menu-down"%string
   <-> BigNumber.isNegative (balanceDelta s) = true)
  /\ (balanceClass s = "rotki-red lighten-1"%string
      <-> BigNumber.isNegative (balanceDelta s) = true).
Proof.
  intros Hload. unfold indicator, balanceClass. rewrite Hload.
  destruct (BigNumber.isNegative (balanceDelta s));
    repeat split; intros; (reflexivity || discriminate).
Qed.

(** X5.  For a finite total and a finite starting value, the delta is zero
    exactly when the two are equal; and, the panel not loading and the
    total not being the negative zero, the down glyph and the red class
    show exactly when the total is below the starting value. *)
Theorem indicator_below_start (s : Stores) (a b : bool) (c1 c2 : N)
                              (e1 e2 : Z) :
  totalNetWorth s = BigNumber.Finite a c1 e1 ->
  startingValue s = BigNumber.Finite b c2 e2 ->
  (BigNumber.isZero (balanceDelta s) = true
   <-> BigNumber.to_Q (totalNetWorth s)
       == BigNumber.to_Q (startingValue s))
  /\ (isLoading s = false ->
      ~ (c1 = 0%N /\ a = true) ->
      (indicator s = "mdi-menu-down"%string
       <-> BigNumber.to_Q (totalNetWorth s)
           < BigNumber.to_Q (startingValue s))
      /\ (balanceClass s = "rotki-red lighten-1"%string
          <-> BigNumber.to_Q (totalNetWorth s)
              < BigNumber.to_Q (startingValue s))).
Proof.
  intros Htotal Hstart.
  destruct (minus_sign a b c1 c2 e1 e2) as [Hzero Hneg].
  split.
  - unfold balanceDelta. rewrite Htotal, Hstart. exact Hzero.
  - intros Hload Hnz. destruct (glyph_by_sign s Hload) as [Hglyph Hclass].
    unfold balanceDelta in Hglyph, Hclass.
    rewrite Htotal, Hstart in *. rewrite Hglyph, Hclass, Hneg.
    split; (split; [intros [Hlt | (Hc & Ha & _)]; [exact Hlt | tauto]
                   | intros Hlt; now left]).
Qed.

(** X6.  A total equal to a finite, non-zero starting value shows as no
    change: the percentage is ["0.00"] and, the panel not loading, the
    glyph points up. *)
Theorem percentage_unchanged (s : Stores) (a b : bool) (c1 c2 : N)
                             (e1 e2 : Z) :
  totalNetWorth s = BigNumber.Finite a c1 e1 ->
  startingValue s = BigNumber.Finite b c2 e2 ->
  c2 <> 0%N ->
  BigNumber.to_Q (totalNetWorth s) == BigNumber.to_Q (startingValue s) ->
  percentage s = "0.00"%string
  /\ (isLoading s = false -> indicator s = "mdi-menu-up"%string).
Proof.
  intros Htotal Hstart Hc2 Heq.
  destruct (minus_sign a b c1 c2 e1 e2) as [Hzero Hneg].
  rewrite Htotal, Hstart in Heq.
  pose proof (minus_self_value a b c1 c2 e1 e2 Hc2 Heq) as Hc1.
  assert (Hdelta : BigNumber.isZero (balanceDelta s) = true)
    by (unfold balanceDelta; rewrite Htotal, Hstart; now apply Hzero).
  split.
  - unfold percentage.
    pose proof (zero_delta_ratio (balanceDelta s) b c2 e2 Hc2 Hdelta)
      as Hratio.
    rewrite Hstart.
    destruct (BigNumber.isFinite _) eqn:Hfin; [exact Hratio|].
    exfalso. revert Hfin. rewrite times_100_finite, div_finite.
    destruct (balanceDelta s); try discriminate.
    destruct (N.eqb_spec c2 0); [contradiction | discriminate].
  - intros Hload. unfold indicator. rewrite Hload.
    destruct (BigNumber.isNegative (balanceDelta s)) eqn:Hs;
      [|reflexivity].
    exfalso. unfold balanceDelta in Hs. rewrite Htotal, Hstart in Hs.
    apply Hneg in Hs. destruct Hs as [Hlt | (Hc & _)]; [lra | tauto].
Qed.

(** X7.  Glyph and colour never disagree: the empty indicator goes with the
    grey class, the down glyph with the red one and the up glyph with the
    green one, and with nothing else. *)
Theorem indicator_class_agree (s : Stores) :
  (indicator s = ""%string
   <-> balanceClass s = "rotki-grey lighten-3"%string)
  /\ (indicator s = "mdi-menu-down"%string
      <-> balanceClass s = "rotki-red lighten-1"%string)
  /\ (indicator s = "mdi-menu-up"%string
      <-> balanceClass s = "rotki-green"%string)
  /\ (indicator s = ""%string <-> isLoading s = true).
Proof.
  unfold indicator, balanceClass.
  destruct (isLoading s), (BigNumber.isNegative (balanceDelta s));
    repeat split; intros; (reflexivity || discriminate).
Qed.

End DeltaSign.

Lemma indicator_class_agree_witness :
  balanceClass Example.falling = "rotki-red lighten-1"%string
  /\ isLoading Example.loading = true.
Proof.
  split.
  - exact (proj1 (proj1 (proj2 (indicator_class_agree Example.falling)))
             eq_refl).
  - exact (proj1 (proj2 (proj2 (proj2
                    (indicator_class_agree Example.loading)))) eq_refl).
Defined.

Lemma indicator_below_start_witness :
  indicator Example.falling = "mdi-menu-down"%string
  /\ BigNumber.isZero (balanceDelta Example.flat) = true.
Proof.
  pose proof (indicator_below_start Example.falling false false 20 50 0 0
                eq_refl eq_refl) as [_ Hdown].
  pose proof (indicator_below_start Example.flat false false 50 50 0 0
                eq_refl eq_refl) as [Hzero _].
  split.
  - apply Hdown; [reflexivity | intros [Hc _]; discriminate Hc |].
    reflexivity.
  - apply Hzero. reflexivity.
Defined.

Lemma percentage_unchanged_witness :
  percentage Example.flat = "0.00"%string
  /\ indicator Example.flat = "mdi-menu-up"%string.
Proof.
  pose proof (percentage_unchanged Example.flat false false 50 50 0 0
                eq_refl eq_refl) as Hflat.
  destruct Hflat as [Hpercent Hglyph].
  - discriminate.
  - reflexivity.
  - split; [exact Hpercent | exact (Hglyph eq_refl)].
Defined.

(** ** The shape and the sign of the percentage *)

Lemma length_app (a b : string) :
  String.length (a ++ b) = (String.length a + String.length b)%nat.
Proof. induction a as [|ch a IH]; simpl; [reflexivity | now rewrite IH]. Qed.

Lemma length_zeros (n : nat) : String.length (BigNumber.zeros n) = n.
Proof. induction n as [|n IH]; simpl; [reflexivity | now rewrite IH]. Qed.

Lemma length_pad_left (width : nat) (s : string) :
  String.length (BigNumber.pad_left width s)
  = Nat.max width (String.length s).
Proof.
  unfold BigNumber.pad_left. rewrite length_app, length_zeros. lia.
Qed.

(** A number below one hundred prints with at most two digits. *)
Lemma length_below_100 (n : N) :
  (n < 100)%N -> (String.length (BigNumber.string_of_N n) <= 2)%nat.
Proof.
  intros Hn.
  assert (Hall : forallb
                   (fun k => (String.length
                                (BigNumber.string_of_N (N.of_nat k)) <=? 2)%nat)
                   (seq 0 100) = true) by (vm_compute; reflexivity).
  rewrite forallb_forall in Hall.
  specialize (Hall (N.to_nat n)). rewrite N2Nat.id in Hall.
  apply Nat.leb_le, Hall, in_seq. lia.
Qed.

Lemma two_decimals_app (a b : string) :
  two_decimals b = true -> two_decimals (a ++ b) = true.
Proof.
  intros Hb. induction a as [|ch a IH]; simpl; [exact Hb|].
  rewrite IH. apply orb_true_r.
Qed.

(** A finite value formatted to two places ends with a decimal point and
    two digits. *)
Lemma toFormat_two_decimals (neg : bool) (c : N) (e : Z) :
  two_decimals (BigNumber.toFormat 2 (BigNumber.Finite neg c e)) = true.
Proof.
  unfold BigNumber.toFormat.
  apply two_decimals_app, two_decimals_app.
  cbn [append two_decimals]. rewrite length_pad_left.
  pose proof (length_below_100
                (BigNumber.scaled c e 2 mod pow10 (Z.of_nat 2))) as Hlen.
  assert (Hmod : (BigNumber.scaled c e 2 mod pow10 (Z.of_nat 2) < 100)%N)
    by (apply N.mod_lt; discriminate).
  specialize (Hlen Hmod).
  replace (Nat.max 2 _) with 2%nat by lia. reflexivity.
Qed.

(** The digits of a number begin with a digit. *)
Lemma string_of_N_head (n : N) :
  exists d rest,
    BigNumber.string_of_N n = String d rest
    /\ Ascii.eqb d "-" = false
    /\ is_separator d = false.
Proof.
  unfold BigNumber.string_of_N. destruct n as [|p]; cbn [N.to_uint].
  - now exists "0"%char, EmptyString.
  - pose proof (DecimalPos.Unsigned.to_uint_nonnil p) as Hnil.
    destruct (Pos.to_uint p); [contradiction | ..];
      cbn [NilEmpty.string_of_uint]; eexists _, _; repeat split.
Qed.

(** [toFormat] prints the minus sign of a finite value exactly when the
    value is negative and not zero. *)
Lemma toFormat_sign (dp : nat) (neg : bool) (c : N) (e : Z) :
  starts_with_minus (BigNumber.toFormat dp (BigNumber.Finite neg c e))
  = neg && negb (c =? 0)%N.
Proof.
  unfold BigNumber.toFormat.
  destruct (neg && negb (c =? 0)%N); [reflexivity|].
  cbn [append].
  destruct (string_of_N_head
              (BigNumber.scaled c e dp / pow10 (Z.of_nat dp)))
    as (d & rest & -> & Hd & _).
  cbn [BigNumber.group append starts_with_minus]. exact Hd.
Qed.

(** Quotient and product carry the exclusive or of the signs. *)
Lemma ratio_sign (x start : BigNumber.t) :
  BigNumber.isFinite
    (BigNumber.multipliedBy (BigNumber.div x start) (BigNumber.of_Z 100))
  = true ->
  BigNumber.isNegative
    (BigNumber.multipliedBy (BigNumber.div x start) (BigNumber.of_Z 100))
  = xorb (BigNumber.isNegative x) (BigNumber.isNegative start).
Proof.
  change (BigNumber.of_Z 100) with (BigNumber.Finite false 100 0).
  destruct x as [|a|a c1 e1], start as [|b|b c2 e2];
    try discriminate; cbn [BigNumber.div].
  - cbn. now rewrite xorb_false_r.
  - destruct (c2 =? 0)%N.
    + destruct (c1 =? 0)%N; discriminate.
    + destruct (c1 =? 0)%N; cbn [BigNumber.multipliedBy].
      * cbn. now rewrite xorb_false_r.
      * destruct (_ || _); cbn; now rewrite xorb_false_r.
Qed.

Section PercentageShape.

Context `{TimeFrames}.

(** X8.  The percentage is the dash, when the ratio is not finite, or a
    decimal with exactly two places; it is never ["NaN"], ["Infinity"] or
    ["-Infinity"], whatever the total and the series. *)
Theorem percentage_shape (s : Stores) :
  ((BigNumber.isFinite (percentageRatio s) = false
    /\ percentage s = "-"%string)
   \/ (BigNumber.isFinite (percentageRatio s) = true
       /\ two_decimals (percentage s) = true))
  /\ percentage s <> "NaN"%string
  /\ percentage s <> "Infinity"%string
  /\ percentage s <> "-Infinity"%string.
Proof.
  assert (Hshape : (BigNumber.isFinite (percentageRatio s) = false
                    /\ percentage s = "-"%string)
                   \/ (BigNumber.isFinite (percentageRatio s) = true
                       /\ two_decimals (percentage s) = true)).
  { unfold percentage. fold (percentageRatio s).
    destruct (percentageRatio s) as [|neg|neg c e];
      cbn [BigNumber.isFinite]; try (left; now split).
    right. split; [reflexivity | apply toFormat_two_decimals]. }
  split; [exact Hshape|].
  destruct Hshape as [[_ ->] | [_ Htwo]].
  - repeat split; discriminate.
  - repeat split; intros Heq; rewrite Heq in Htwo; discriminate.
Qed.

(** X9.  The ratio is negative exactly when delta and starting value have
    opposite signs, and the percentage begins with a minus sign exactly
    when the ratio is negative and not zero.  So the sign of the
    percentage is that of the delta for a starting value that is not
    negative, and the opposite one for a negative starting value. *)
Theorem percentage_sign (s : Stores) :
  BigNumber.isFinite (percentageRatio s) = true ->
  BigNumber.isNegative (percentageRatio s)
  = xorb (BigNumber.isNegative (balanceDelta s))
         (BigNumber.isNegative (startingValue s))
  /\ starts_with_minus (percentage s)
     = BigNumber.isNegative (percentageRatio s)
       && negb (BigNumber.isZero (percentageRatio s)).
Proof.
  intros Hfin. split; [now apply ratio_sign|].
  unfold percentage. fold (percentageRatio s). rewrite Hfin.
  destruct (percentageRatio s) as [|neg|neg c e]; try discriminate.
  apply toFormat_sign.
Qed.

End PercentageShape.

Lemma percentage_shape_witness :
  two_decimals (percentage Example.dashboard) = true
  /\ percentage Example.empty = "-"%string.
Proof.
  assert (Hfinite : BigNumber.isFinite (percentageRatio Example.dashboard)
                    = true) by reflexivity.
  split.
  - destruct (proj1 (percentage_shape Example.dashboard))
      as [[Hnot _] | [_ Htwo]]; [|exact Htwo].
    rewrite Hfinite in Hnot. discriminate Hnot.
  - destruct (proj1 (percentage_shape Example.empty))
      as [[_ Hdash] | [Hfin _]]; [exact Hdash | discriminate Hfin].
Defined.

Lemma percentage_sign_witness :
  starts_with_minus (percentage Example.falling) = true
  /\ BigNumber.isNegative (percentageRatio Example.falling) = true.
Proof.
  pose proof (percentage_sign Example.falling eq_refl) as [Hsign Hminus].
  split.
  - rewrite Hminus. reflexivity.
  - rewrite Hsign. reflexivity.
Defined.

(** With a negative first entry the two signs part: a total of 20 against
    the series [-10, 5] is a rise, shown with the up glyph and the
    percentage ["-300.00"]. *)
Example negative_start_values :
  balanceDelta Example.indebted = BigNumber.of_Z 30
  /\ indicator Example.indebted = "mdi-menu-up"%string
  /\ percentage Example.indebted = "-300.00"%string.
Proof. repeat split. Qed.

(** ** The font size and the digit count *)

Lemma count_app (a b : string) :
  count_non_separators (a ++ b)
  = (count_non_separators a + count_non_separators b)%nat.
Proof.
  induction a as [|ch a IH]; simpl; [reflexivity|].
  rewrite IH. now destruct (is_separator ch).
Qed.

(** Grouping adds separators only. *)
Lemma count_group (s : string) :
  count_non_separators (BigNumber.group s) = count_non_separators s.
Proof.
  induction s as [|ch s IH]; [reflexivity|].
  cbn [BigNumber.group count_non_separators].
  destruct (negb (String.length s =? 0)%nat
            && (String.length s mod 3 =? 0)%nat);
    cbn [count_non_separators]; rewrite ?IH; reflexivity.
Qed.

Lemma count_uint (d : Decimal.uint) :
  count_non_separators (NilEmpty.string_of_uint d)
  = String.length (NilEmpty.string_of_uint d).
Proof.
  induction d; cbn [NilEmpty.string_of_uint]; [reflexivity | ..];
    cbn; now rewrite IHd.
Qed.

Lemma count_zeros (n : nat) :
  count_non_separators (BigNumber.zeros n) = n.
Proof. induction n as [|n IH]; simpl; [reflexivity | now rewrite IH]. Qed.

Lemma count_pad_left (width : nat) (n : N) :
  count_non_separators (BigNumber.pad_left width (BigNumber.string_of_N n))
  = Nat.max width (String.length (BigNumber.string_of_N n)).
Proof.
  unfold BigNumber.pad_left, BigNumber.string_of_N.
  rewrite count_app, count_zeros, count_uint. lia.
Qed.

Lemma length_string_of_N (n : N) :
  (1 <= String.length (BigNumber.string_of_N n))%nat.
Proof.
  destruct (string_of_N_head n) as (d & rest & -> & _). simpl. lia.
Qed.

(** The characters counted in a formatted finite value: the minus sign
    when it is printed, the integer digits, and the decimal places. *)
Lemma count_toFormat (dp : nat) (neg : bool) (c : N) (e : Z) :
  count_non_separators (BigNumber.toFormat dp (BigNumber.Finite neg c e))
  = ((if neg && negb (c =? 0)%N then 1 else 0)
     + String.length
         (BigNumber.string_of_N
            (BigNumber.scaled c e dp / pow10 (Z.of_nat dp)))
     + match dp with
       | O => 0
       | S _ => Nat.max dp
                  (String.length
                     (BigNumber.string_of_N
                        (BigNumber.scaled c e dp mod pow10 (Z.of_nat dp))))
       end)%nat.
Proof.
  unfold BigNumber.toFormat. rewrite !count_app, count_group.
  unfold BigNumber.string_of_N at 1. rewrite count_uint.
  fold (BigNumber.string_of_N
          (BigNumber.scaled c e dp / pow10 (Z.of_nat dp))).
  set (whole := BigNumber.string_of_N _).
  set (fraction := BigNumber.pad_left dp _).
  assert (Hsign : forall b : bool,
             count_non_separators (if b then "-" else "")
             = if b then 1%nat else 0%nat) by (now intros []).
  assert (Hpoint : count_non_separators
                     match dp with O => "" | S _ => "." ++ fraction end
                   = match dp with
                     | O => 0%nat
                     | S _ => count_non_separators fraction
                     end) by (now destruct dp).
  rewrite Hsign, Hpoint. unfold fraction.
  destruct dp; rewrite ?count_pad_left; lia.
Qed.

Section DigitCount.

Context `{TimeFrames}.

(** X10.  The digit count is never zero, so [12 / digits] is never a division
    by zero.  For a finite total it is the number of integer digits, plus
    the decimal places, plus one for a printed minus sign; grouping commas
    and the decimal point are not counted.  It is at least one more than
    the floating precision. *)
Theorem digits_count (s : Stores) :
  (1 <= digits s)%nat
  /\ (forall neg c e,
        totalNetWorth s = BigNumber.Finite neg c e ->
        let dp := floatingPrecision s in
        let shown := BigNumber.scaled c e dp in
        digits s
        = ((if neg && negb (c =? 0)%N then 1 else 0)
           + String.length
               (BigNumber.string_of_N (shown / pow10 (Z.of_nat dp)))
           + match dp with
             | O => 0
             | S _ => Nat.max dp
                        (String.length
                           (BigNumber.string_of_N
                              (shown mod pow10 (Z.of_nat dp))))
             end)%nat
        /\ (floatingPrecision s + 1 <= digits s)%nat).
Proof.
  assert (Hfinite : forall neg c e,
             totalNetWorth s = BigNumber.Finite neg c e ->
             let dp := floatingPrecision s in
             let shown := BigNumber.scaled c e dp in
             digits s
             = ((if neg && negb (c =? 0)%N then 1 else 0)
                + String.length
                    (BigNumber.string_of_N (shown / pow10 (Z.of_nat dp)))
                + match dp with
                  | O => 0
                  | S _ => Nat.max dp
                             (String.length
                                (BigNumber.string_of_N
                                   (shown mod pow10 (Z.of_nat dp))))
                  end)%nat
             /\ (floatingPrecision s + 1 <= digits s)%nat).
  { intros neg c e Htotal dp shown.
    assert (Hcount : digits s
                     = count_non_separators
                         (BigNumber.toFormat dp (BigNumber.Finite neg c e))).
    { unfold digits. rewrite remove_separators_length, Htotal.
      reflexivity. }
    rewrite Hcount, count_toFormat. fold shown. split; [reflexivity|].
    pose proof (length_string_of_N (shown / pow10 (Z.of_nat dp))).
    fold dp. destruct dp; lia. }
  split; [|exact Hfinite].
  destruct (totalNetWorth s) as [|neg|neg c e] eqn:Htotal.
  - unfold digits. rewrite Htotal. simpl. lia.
  - unfold digits. rewrite Htotal. destruct neg; simpl; lia.
  - destruct (Hfinite neg c e eq_refl) as [_ Hle]. lia.
Qed.


End DigitCount.

Lemma digits_count_witness :
  digits Example.falling = 4%nat
  /\ (floatingPrecision Example.falling + 1 <= digits Example.falling)%nat.
Proof.
  pose proof (digits_count Example.falling) as [_ Hfinite].
  destruct (Hfinite false 20%N 0%Z eq_refl) as [Hcount Hle].
  split; [rewrite Hcount; reflexivity | exact Hle].
Defined.


(** ** Selections, mounts and premium changes *)



Section Events.

Context `{TimeFrames}.



(** X12.  Selecting twice is selecting the second period: the outcome is the
    one of the second selection alone.  A selection leaves the premium
    flag, the session and the statistics alone, issues no fetch, and
    leaves the persisted time frame equal to the selected one. *)
Theorem setTimeframe_overwrites (s s1 s2 : Stores)
                                (first second : TimeFrameSetting)
                                (effects1 effects2 : list Effect) :
  setTimeframe first s = Ok (s1, effects1) ->
  setTimeframe second s1 = Ok (s2, effects2) ->
  setTimeframe second s = Ok (s2, effects2)
  /\ premium s1 = premium s
  /\ logged s1 = logged s
  /\ totalNetWorth s1 = totalNetWorth s
  /\ getNetValue s1 = getNetValue s
  /\ fetches effects1 = 0%nat
  /\ lastKnownTimeframe s1 = timeframe s1.
Proof.
  destruct first as [p|[]], second as [q|[]]; cbn;
    intros Hfirst Hsecond; try discriminate.
  inversion Hfirst; subst. inversion Hsecond; subst.
  repeat split.
Qed.

(** X13.  After a selection the panel reads the series of the selected window:
    the starting value is the one of that series, and the delta is the
    unchanged total against it. *)
Theorem setTimeframe_selects (s s' : Stores) (p : TimeFramePeriod)
                             (effects : list Effect) :
  setTimeframe (Period p) s = Ok (s', effects) ->
  timeframeData s' = getNetValue s (startingDate p)
  /\ startingValue s'
     = startingValueOf (data (getNetValue s (startingDate p)))
  /\ balanceDelta s'
     = BigNumber.minus
         (totalNetWorth s)
         (startingValueOf (data (getNetValue s (startingDate p))))
  /\ effects = [SessionUpdate p; UpdateSetting p].
Proof.
  cbn. intros Hcall. inversion Hcall; subst. repeat split.
Qed.

(** X14.  The downgrade on mount is for the session only: the persisted time
    frame stays, and no setting is written.  Mounting again changes
    nothing more; and when the two-week window is itself allowed, the
    selection after the mount is allowed unless the user has premium. *)
Theorem onMounted_transient (s : Stores) :
  let s' := fst (onMounted s) in
  lastKnownTimeframe s' = lastKnownTimeframe s
  /\ (forall p, ~ In (UpdateSetting p) (snd (onMounted s)))
  /\ fst (onMounted s') = s'
  /\ (isPeriodAllowed TWO_WEEKS = true ->
      (premium s' = true \/ isPeriodAllowed (timeframe s') = true)
      /\ onMounted s' = (s', [])).
Proof.
  unfold onMounted.
  destruct (premium s) eqn:Hp; cbn [negb andb fst snd].
  - rewrite Hp. cbn. repeat split; tauto.
  - destruct (isPeriodAllowed (timeframe s)) eqn:Ha; cbn [negb fst snd].
    + rewrite Hp, Ha. cbn. repeat split; tauto.
    + cbn [premium timeframe set_timeframe lastKnownTimeframe].
      rewrite Hp. cbn [negb andb].
      split; [reflexivity|]. split; [|split].
      * intros p [Hin|[]]. discriminate.
      * now destruct (isPeriodAllowed TWO_WEEKS).
      * intros Htwo. rewrite Htwo. split; [now right | reflexivity].
Qed.



End Events.

Lemma setTimeframe_overwrites_witness :
  setTimeframe (Example.select Example.year) Example.dashboard
  = Ok (Example.stores Example.year false true (BigNumber.of_Z 100) false
          [0; 0; 50; 80]%Z,
        Example.notify Example.year).
Proof.
  exact (proj1 (setTimeframe_overwrites Example.dashboard _ _
                  (Example.select Example.week)
                  (Example.select Example.year) _ _ eq_refl eq_refl)).
Defined.

Lemma setTimeframe_selects_witness :
  startingValue (Example.windowed Example.week) = BigNumber.of_Z 70
  /\ balanceDelta (Example.windowed Example.week) = BigNumber.of_Z 30.
Proof.
  pose proof (setTimeframe_selects (Example.windowed Example.all)
                (Example.windowed Example.week) Example.week _ eq_refl)
    as [_ [Hstart [Hdelta _]]].
  split; [rewrite Hstart | rewrite Hdelta]; reflexivity.
Defined.

Lemma onMounted_transient_witness :
  lastKnownTimeframe (fst (onMounted Example.dashboard)) = Example.month
  /\ onMounted (fst (onMounted Example.dashboard))
     = (fst (onMounted Example.dashboard), []).
Proof.
  pose proof (onMounted_transient Example.dashboard)
    as [Hkept [_ [_ Hallowed]]].
  split; [exact Hkept | exact (proj2 (Hallowed eq_refl))].
Defined.

(** A session: the panel is mounted on the month, the user subscribes,
    selects the year, tries the sentinel, and the subscription lapses. *)
Example session_values :
  let events :=
    [Mounted; PremiumAssigned true; Selected (Example.select Example.year);
     Selected (Persist REMEMBER); PremiumAssigned true;
     PremiumAssigned false] in
  run events Example.dashboard
  = (Example.session,
     Example.downgrade Example.two_weeks ++ Example.fetch
     ++ Example.notify Example.year ++ Example.fetch).
Proof. reflexivity. Qed.

(** ** What is on the screen *)

Section Rendering.

Context `{TimeFrames}.

(** X17.  The spinner and the loader of the chart show exactly while the panel
    is loading, with the grey class; the icon, the delta, the percentage
    and the chart show exactly while it is not.  An icon that is rendered
    has the up or the down glyph: the empty indicator never reaches the
    screen.  What is shown is the delta, the percentage and the series of
    the selected window. *)
Theorem render_consistent (showGraphRangeSelector : bool) (s : Stores) :
  let view := render showGraphRangeSelector s in
  loadingSpinner view = isLoading s
  /\ (icon view = None <-> loadingSpinner view = true)
  /\ (deltaAmount view = None <-> loadingSpinner view = true)
  /\ (percentageDisplay view = None <-> loadingSpinner view = true)
  /\ (chart view = None <-> loadingSpinner view = true)
  /\ (chartLoader view = None <-> loadingSpinner view = false)
  /\ (pillClass view = "rotki-grey lighten-3"%string
      <-> loadingSpinner view = true)
  /\ (forall glyph,
        icon view = Some glyph ->
        glyph = "mdi-menu-up"%string \/ glyph = "mdi-menu-down"%string)
  /\ (forall delta, deltaAmount view = Some delta -> delta = balanceDelta s)
  /\ (forall shown,
        percentageDisplay view = Some shown -> shown = percentage s)
  /\ (forall series, chart view = Some series -> series = timeframeData s)
  /\ (forall height,
        chartLoader view = Some height ->
        height = if showGraphRangeSelector then "268px"%string
                 else "208px"%string).
Proof.
  unfold render, v_if, balanceClass, indicator.
  cbn [loadingSpinner icon deltaAmount percentageDisplay chart chartLoader
       pillClass].
  destruct (isLoading s); cbn [negb].
  - repeat split; intros; try discriminate; try reflexivity.
    match goal with
    | Hx : Some _ = Some _ |- _ => inversion Hx; subst
    end.
    now destruct showGraphRangeSelector.
  - destruct (BigNumber.isNegative (balanceDelta s));
      repeat split; intros; try discriminate;
      try match goal with
          | Hx : Some _ = Some _ |- _ => inversion Hx; subst
          end;
      auto.
Qed.

End Rendering.

Lemma render_consistent_witness :
  icon (render true Example.loading) = None
  /\ chartLoader (render true Example.loading) = Some "268px"%string
  /\ icon (render false Example.falling) = Some "mdi-menu-down"%string
  /\ percentageDisplay (render false Example.falling)
     = Some "-60.00"%string.
Proof.
  pose proof (render_consistent true Example.loading)
    as [_ [Hicon _]].
  pose proof (render_consistent true Example.loading)
    as [_ [_ [_ [_ [_ [_ [_ [_ [_ [_ [_ Hheight]]]]]]]]]]].
  pose proof (render_consistent false Example.falling)
    as [_ [_ [_ [_ [_ [_ [_ [Hglyph [_ [Hshown _]]]]]]]]]].
  split; [|split; [|split]].
  - apply Hicon. reflexivity.
  - pose proof (Hheight "268px"%string eq_refl) as Hpx. reflexivity.
  - destruct (Hglyph "mdi-menu-down"%string eq_refl) as [Hup | Hdown];
      [discriminate Hup | reflexivity].
  - pose proof (Hshown "-60.00"%string eq_refl) as Hpercent.
    reflexivity.
Defined.

(** * Further properties of the statistics client *)

Section ClientOutcomeProofs.

Context `{Services}.





End ClientOutcomeProofs.


